(** * getDashboardPrompt / getSummaryAnalysis: a shallow embedding

    The repository holds two HTTP cloud functions ([src/index.js]).  Each one
    validates the request body, builds a prompt, asks an ordered list of
    generative models for a completion until one answers, and falls back to a
    canned message when none does.

    Conventions of the embedding:
    - a JavaScript string is the list of its UTF-16 code units ([jsstring]);
    - a property that is missing ([undefined]) is [Missing] and one that is
      [null] is [Null] wherever the code tells the two apart: a value printed
      by a template, an operand of [-], a parameter with a default.  Where
      the code treats them alike (a test for truth, [?.], [==] against a
      string) both are [None], or [Absent] for an array;
    - a [throw] is the left injection of a sum ([inl]), a normal completion
      the right one ([inr]);
    - the model service is an oracle, a function from the position of a call
      within the request and the call itself to the outcome of that call;
    - console output and model invocations are collected in a trace. *)

From Stdlib Require Import String Ascii DecimalString.
From Stdlib Require Import List NArith ZArith Arith Bool Lia.
Import ListNotations.

Set Implicit Arguments.

(* ===================================================================== *)
(** ** JavaScript strings                                                  *)
(* ===================================================================== *)

Module JsString.

(** A string value: its UTF-16 code units. *)
Definition jsstring := list N.

(** An ASCII literal of the source as a [jsstring]. *)
Definition js (s : string) : jsstring :=
  map N_of_ascii (list_ascii_of_string s).

Fixpoint str_eqb (a b : jsstring) : bool :=
  match a, b with
  | [], [] => true
  | x :: a', y :: b' => N.eqb x y && str_eqb a' b'
  | _, _ => false
  end.

(** Truthiness of a string: [''] is falsy. *)
Definition truthy (s : jsstring) : bool :=
  match s with [] => false | _ :: _ => true end.

(** [a || b] on a possibly missing string. *)
Definition or_else (a : option jsstring) (b : jsstring) : jsstring :=
  match a with
  | Some s => if truthy s then s else b
  | None => b
  end.

(** The class [\s] of an ECMAScript regular expression: WhiteSpace and
    LineTerminator code units. *)
Definition is_space (c : N) : bool :=
  ((9 <=? c) && (c <=? 13) || (c =? 32) || (c =? 160) || (c =? 5760)
   || (8192 <=? c) && (c <=? 8202) || (c =? 8232) || (c =? 8233)
   || (c =? 8239) || (c =? 8287) || (c =? 12288) || (c =? 65279))%N.

(** [s.split(/\s+/)]: the pieces between maximal whitespace runs.  A string
    that starts (ends) with whitespace yields an empty first (last) piece,
    and the empty string yields one empty piece. *)
Fixpoint split_ws (s : jsstring) : list jsstring :=
  match s with
  | [] => [[]]
  | c :: s' =>
      let r := split_ws s' in
      if is_space c then
        match s' with
        | c' :: _ => if is_space c' then r else [] :: r
        | [] => [] :: r
        end
      else
        match r with
        | p :: ps => (c :: p) :: ps
        | [] => [[c]]
        end
  end.

(** [s.split(sep)] for a one-character separator. *)
Fixpoint split_on (sep : N) (s : jsstring) : list jsstring :=
  match s with
  | [] => [[]]
  | c :: s' =>
      if (c =? sep)%N then [] :: split_on sep s'
      else
        match split_on sep s' with
        | p :: ps => (c :: p) :: ps
        | [] => [[c]]
        end
  end.

(** [l.join(sep)]. *)
Fixpoint join (sep : jsstring) (l : list jsstring) : jsstring :=
  match l with
  | [] => []
  | [x] => x
  | x :: rest => x ++ sep ++ join sep rest
  end.

(** [`${n}`] for a non-negative integer [n]. *)
Definition decimal (n : nat) : jsstring :=
  js (NilEmpty.string_of_uint (Nat.to_uint n)).

(** [`${b}`] for a boolean. *)
Definition of_bool (b : bool) : jsstring :=
  if b then js "true" else js "false".

(** [needle] occurs in [hay] as a contiguous substring. *)
Definition occurs_in (needle hay : jsstring) : Prop :=
  exists pre post, hay = pre ++ needle ++ post.

(** The words of a text in the ordinary sense: its maximal runs of
    non-whitespace characters.  This is the reading of "word" in the
    documentation of the 150 word limit; it is compared below with the
    pieces [split_ws] returns. *)
Fixpoint words_from (cur : jsstring) (s : jsstring) : list jsstring :=
  match s with
  | [] => match cur with [] => [] | _ => [rev cur] end
  | c :: s' =>
      if is_space c then
        match cur with
        | [] => words_from [] s'
        | _ => rev cur :: words_from [] s'
        end
      else words_from (c :: cur) s'
  end.

Definition words (s : jsstring) : list jsstring := words_from [] s.

Definition word_count (s : jsstring) : nat := length (words s).

End JsString.
Export JsString.

(* ===================================================================== *)
(** ** Properties that may be missing or null                              *)
(* ===================================================================== *)

Module JsValue.

(** The value of a property of a parsed JSON object: the key is missing
    (reading it gives [undefined]), or holds [null], or holds a value. *)
Inductive nullable (A : Type) : Type :=
| Missing
| Null
| Val (x : A).
Arguments Missing {A}.
Arguments Null {A}.

(** The value under a test for truth or [?.]: [undefined] and [null] count
    as nothing. *)
Definition present {A : Type} (x : nullable A) : option A :=
  match x with
  | Val v => Some v
  | Missing | Null => None
  end.

End JsValue.
Export JsValue.

(* ===================================================================== *)
(** ** JavaScript numbers                                                  *)
(* ===================================================================== *)

(** Numbers are IEEE doubles and their arithmetic and printing belong to the
    language runtime, not to this repository.  The handlers use them in one
    expression, [(10 - v.defectIntensity).toFixed(1)]; the embedding takes
    exactly the primitives of that expression as an interface. *)
Class JsNumber : Type := {
  number : Type;
  (** the literal [10] *)
  num_ten : number;
  (** [NaN], the number [undefined] converts to *)
  num_nan : number;
  (** [+0], the number [null] converts to *)
  num_zero : number;
  (** [a - b] *)
  num_minus : number -> number -> number;
  (** [x.toFixed(1)] *)
  toFixed1 : number -> jsstring
}.

(** A small instance used to run the handlers on concrete requests: decimal
    numbers with one fractional digit, held as an integer count of tenths.
    On such numbers of moderate size [10 - d] is exact to the tenth, so the
    printed score is the decimal shown here. *)
Module Deci.

Inductive deci : Type :=
| NaN
| Tenths (t : Z).

Definition minus (a b : deci) : deci :=
  match a, b with
  | Tenths x, Tenths y => Tenths (x - y)
  | _, _ => NaN
  end.

Definition toFixed1 (a : deci) : jsstring :=
  match a with
  | NaN => js "NaN"
  | Tenths t =>
      (if (t <? 0)%Z then js "-" else [])
        ++ decimal (Z.to_nat (Z.abs t / 10))
        ++ js "." ++ decimal (Z.to_nat (Z.abs t mod 10))
  end.

End Deci.

#[export] Instance DeciNumber : JsNumber := {|
  number := Deci.deci;
  num_ten := Deci.Tenths 100;
  num_nan := Deci.NaN;
  num_zero := Deci.Tenths 0;
  num_minus := Deci.minus;
  toFixed1 := Deci.toFixed1
|}.

(* ===================================================================== *)
(** ** The generation service (Vertex AI SDK) as seen by the handlers      *)
(* ===================================================================== *)

Module Vertex.

(** A thrown value: an [Error] object with its [name] and [message]. *)
Record js_error : Type := {
  err_name : jsstring;
  message : jsstring
}.

(** [new Error(msg)] *)
Definition Error (msg : jsstring) : js_error :=
  {| err_name := js "Error"; message := msg |}.

(** A [TypeError] raised by the runtime. *)
Definition TypeError (msg : jsstring) : js_error :=
  {| err_name := js "TypeError"; message := msg |}.

(** Reading property [prop] of [undefined]. *)
Definition reading_undefined (prop : jsstring) : js_error :=
  TypeError (js "Cannot read properties of undefined (reading '"
               ++ prop ++ js "')").

(** The part of a response the handlers look at:
    [response.candidates[0].content.parts[0].text]. *)
Record Part : Type := { text : option jsstring }.
Record Content : Type := { parts : option (list Part) }.
Record Candidate : Type := { content : option Content }.
Record GenerateContentResponse : Type := {
  candidates : option (list Candidate)
}.

(** [generationConfig]; the two decimal literals are held in tenths. *)
Record generation_config : Type := {
  maxOutputTokens : N;
  temperature_tenths : N;
  topP_tenths : N;
  topK : N
}.

Definition safetySettings : list (jsstring * jsstring) :=
  [ (js "HARM_CATEGORY_HATE_SPEECH", js "BLOCK_MEDIUM_AND_ABOVE");
    (js "HARM_CATEGORY_DANGEROUS_CONTENT", js "BLOCK_MEDIUM_AND_ABOVE");
    (js "HARM_CATEGORY_SEXUALLY_EXPLICIT", js "BLOCK_MEDIUM_AND_ABOVE");
    (js "HARM_CATEGORY_HARASSMENT", js "BLOCK_MEDIUM_AND_ABOVE") ].

(** One call: [vertex_ai.getGenerativeModel({model, generationConfig,
    safetySettings}).generateContent(prompt)]. *)
Record generation_call : Type := {
  model : jsstring;
  generationConfig : generation_config;
  safety : list (jsstring * jsstring);
  call_prompt : jsstring
}.

(** What awaiting the call gives: a rejection or a response. *)
Inductive gen_result : Type :=
| Rejected (e : js_error)
| Resolved (response : GenerateContentResponse).

(** The service during one request: the outcome of a call may depend on
    how many calls the request made before it and on the call. *)
Definition oracle : Type := nat -> generation_call -> gen_result.

(** What a handler leaves behind besides its HTTP response. *)
Inductive event : Type :=
| Invoke (c : generation_call)
| ConsoleLog (msg : jsstring)
| ConsoleWarn (msg detail : jsstring)
| ConsoleError (msg : jsstring) (err : option js_error).

(** The calls a trace holds, in order. *)
Fixpoint invocations (evs : list event) : list generation_call :=
  match evs with
  | [] => []
  | Invoke c :: rest => c :: invocations rest
  | _ :: rest => invocations rest
  end.

(** A response whose first candidate carries the text [t]. *)
Definition response_with_text (t : option jsstring) : GenerateContentResponse :=
  {| candidates :=
       Some [ {| content := Some {| parts := Some [ {| text := t |} ] |} |} ] |}.

End Vertex.
Export Vertex.

(* ===================================================================== *)
(** ** HTTP requests and responses                                         *)
(* ===================================================================== *)

Module Http.

(** [req.body] by the cases the validation tells apart.  [ObjectBody]
    covers every value whose [typeof] is ['object'] and that is not
    [null]; an array body has none of the fields the handlers read. *)
Inductive http_body (A : Type) : Type :=
| NoBody                 (* undefined, null or another falsy value *)
| NonObjectBody          (* a truthy value that is not an object *)
| ObjectBody (fields : A).
Arguments NoBody {A}.
Arguments NonObjectBody {A}.

Record http_request (A : Type) : Type := {
  method : jsstring;
  body : http_body A
}.

(** A field that the code expects to be an array. *)
Inductive array_field (A : Type) : Type :=
| Absent                 (* undefined or null *)
| NotArray               (* any other value that is not an array *)
| IsArray (items : list A).
Arguments Absent {A}.
Arguments NotArray {A}.

(** The JSON documents the handlers send. *)
Inductive response_body : Type :=
| EmptyBody
| ErrorBody (error : jsstring) (details : option jsstring)
| PromptBody (prompt model_used : jsstring) (success : bool)
| SummaryBody (summary model_used : jsstring) (success : bool).

Record http_response : Type := {
  status : N;
  headers : list (jsstring * jsstring);
  payload : response_body
}.

Definition cors_headers : list (jsstring * jsstring) :=
  [ (js "Access-Control-Allow-Origin", js "*");
    (js "Access-Control-Allow-Methods", js "POST, OPTIONS");
    (js "Access-Control-Allow-Headers", js "Content-Type") ].

(** [res.status(code).send(doc)] after the three [res.set] calls. *)
Definition send (code : N) (doc : response_body) : http_response :=
  {| status := code; headers := cors_headers; payload := doc |}.

(** The body of a 500 answer; [details] only in development. *)
Definition internal_error (development : bool) (e : js_error) : response_body :=
  ErrorBody (js "Internal server error")
            (if development then Some (message e) else None).

End Http.
Export Http.

(* ===================================================================== *)
(** ** What both handlers share                                            *)
(* ===================================================================== *)

Module Pipeline.

Section WithNumbers.
Context {JN : JsNumber}.

(** [v.virtueId]: a string, or a value of another kind (a number, say).
    All the code does with it is compare it with [==] to the id of a key,
    a string; a value that is not a string is held as what that comparison
    answers for each string. *)
Inductive virtue_id : Type :=
| IdString (s : jsstring)
| IdOther (equals : jsstring -> bool).

(** An element of [prioritizedVirtues].  A [virtueId] that is missing or
    [null] is [None]: [==] tells neither from any string. *)
Record PrioritizedVirtue : Type := {
  virtue : nullable jsstring;
  virtueId : option virtue_id;
  defectIntensity : nullable number
}.

(** [`${x}`] for a string that may be missing or [null]. *)
Definition interpolate (x : nullable jsstring) : jsstring :=
  match x with
  | Val s => s
  | Missing => js "undefined"
  | Null => js "null"
  end.

(** The number an operand of [-] converts to. *)
Definition to_number (x : nullable number) : number :=
  match x with
  | Val n => n
  | Missing => num_nan
  | Null => num_zero
  end.

(** [(10 - v.defectIntensity).toFixed(1)] *)
Definition display_score (v : PrioritizedVirtue) : jsstring :=
  toFixed1 (num_minus num_ten (to_number (defectIntensity v))).

(** [`${i + 1}. ${v.virtue} (Score: ${(10 - v.defectIntensity).toFixed(1)})`] *)
Definition virtue_line (i : nat) (v : PrioritizedVirtue) : jsstring :=
  decimal (i + 1) ++ js ". " ++ interpolate (virtue v)
    ++ js " (Score: " ++ display_score v ++ js ")".

(** [l.map((v, i) => f(i, v))], counting from [i]. *)
Fixpoint mapi_from {A B : Type} (f : nat -> A -> B) (i : nat) (l : list A) : list B :=
  match l with
  | [] => []
  | x :: rest => f i x :: mapi_from f (S i) rest
  end.

Definition mapi {A B : Type} (f : nat -> A -> B) (l : list A) : list B :=
  mapi_from f 0 l.

(** The array behind [prioritizedVirtues?.], empty when the field is
    missing.  The [NotArray] case is never read: the first use of the field
    has thrown by then. *)
Definition items_of {A : Type} (f : array_field A) : list A :=
  match f with
  | IsArray l => l
  | Absent | NotArray => []
  end.

End WithNumbers.

Definition nl : jsstring := [10%N].
Definition dquote : jsstring := [34%N].
Definition hyphen : N := 45%N.

(** The candidates, in the order both handlers try them. *)
Definition modelNames : list jsstring :=
  [ js "gemini-2.5-flash-lite";
    js "gemini-2.0-flash-lite";
    js "gemini-1.5-flash-lite";
    js "gemini-1.5-flash";
    js "gemini-pro" ].

(** Lines 127-130 of the dashboard handler:
    [words = text.split(/\s+/); if (words.length > maxWords)
       text = words.slice(0, maxWords).join(' ') + '...'] *)
Definition enforce_word_limit (maxWords : nat) (generatedText : jsstring) : jsstring :=
  let words := split_ws generatedText in
  if maxWords <? length words
  then join (js " ") (firstn maxWords words) ++ js "..."
  else generatedText.

(** The variables the loop assigns. *)
Record loop_state : Type := {
  generatedText : option jsstring;   (* promptText / summaryText *)
  lastError : option js_error;
  successfulModel : jsstring
}.

(** [let text = ''; let lastError = null; let successfulModel = '';] *)
Definition initial_state : loop_state :=
  {| generatedText := Some []; lastError := None; successfulModel := [] |}.

(** Where the two loops differ: the words of their log lines, the options
    they pass, and what they do with the text they read. *)
Record endpoint : Type := {
  wording : jsstring;        (* "model" | "summary model" *)
  Wording : jsstring;        (* "Model" | "Summary model" *)
  options : generation_config;
  (** from [parts[0].text] to the value assigned to the text variable *)
  accept : option jsstring -> js_error + option jsstring
}.

Definition call_for (ep : endpoint) (prompt modelName : jsstring) : generation_call :=
  {| model := modelName;
     generationConfig := options ep;
     safety := safetySettings;
     call_prompt := prompt |}.

(** [throw new Error('Invalid response format from ...')] *)
Definition invalid_format (ep : endpoint) : js_error :=
  Error (js "Invalid response format from " ++ wording ep).

(** [response.candidates && response.candidates[0] &&
     response.candidates[0].content], then [.parts[0].text]. *)
Definition read_text (ep : endpoint) (response : GenerateContentResponse)
  : js_error + option jsstring :=
  match candidates response with
  | None => inl (invalid_format ep)
  | Some cs =>
      match nth_error cs 0 with
      | None => inl (invalid_format ep)
      | Some c =>
          match content c with
          | None => inl (invalid_format ep)
          | Some ct =>
              match parts ct with
              | None => inl (reading_undefined (js "0"))
              | Some ps =>
                  match nth_error ps 0 with
                  | None => inl (reading_undefined (js "text"))
                  | Some p => inr (text p)
                  end
              end
          end
      end
  end.

(** The body of the inner [try]: what one candidate's outcome leads to,
    the error the [catch] receives or the text assigned. *)
Definition attempt (ep : endpoint) (r : gen_result) : js_error + option jsstring :=
  match r with
  | Rejected e => inl e
  | Resolved response =>
      match read_text ep response with
      | inl e => inl e
      | inr t => accept ep t
      end
  end.

(** [for (const modelName of modelNames) { try { ... break; } catch (error)
    { lastError = error; ... continue; } }]; [i] counts the calls made. *)
Fixpoint try_models (ep : endpoint) (generate : oracle) (prompt : jsstring)
    (i : nat) (models : list jsstring) (st : loop_state)
  : loop_state * list event :=
  match models with
  | [] => (st, [])
  | modelName :: rest =>
      let c := call_for ep prompt modelName in
      let started := [ConsoleLog (js "Trying " ++ wording ep ++ js ": " ++ modelName);
                      Invoke c] in
      match attempt ep (generate i c) with
      | inr t =>
          ({| generatedText := t;
              lastError := lastError st;
              successfulModel := modelName |},
           started ++ [ConsoleLog (js "Success with " ++ wording ep ++ js ": "
                                     ++ modelName)])
      | inl error =>
          let '(st', evs) :=
            try_models ep generate prompt (S i) rest
              {| generatedText := generatedText st;
                 lastError := Some error;
                 successfulModel := successfulModel st |} in
          (st', started
                  ++ [ConsoleWarn (Wording ep ++ js " " ++ modelName ++ js " failed:")
                                  (message error)]
                  ++ evs)
      end
  end.

(** [!text] *)
Definition falsy (t : option jsstring) : bool :=
  match t with
  | Some (_ :: _) => false
  | Some [] | None => true
  end.

(** The string behind a truthy text variable. *)
Definition text_value (t : option jsstring) : jsstring :=
  match t with
  | Some s => s
  | None => []
  end.

(** The outcome of every candidate of [models] under [generate], as the
    loop would see it if it reached that candidate. *)
Fixpoint outcomes_from (ep : endpoint) (generate : oracle) (prompt : jsstring)
    (i : nat) (models : list jsstring) : list (js_error + option jsstring) :=
  match models with
  | [] => []
  | m :: rest =>
      attempt ep (generate i (call_for ep prompt m))
        :: outcomes_from ep generate prompt (S i) rest
  end.

(** The position and text of the first outcome that is not an error. *)
Fixpoint first_success (rs : list (js_error + option jsstring))
  : option (nat * option jsstring) :=
  match rs with
  | [] => None
  | inr t :: _ => Some (0, t)
  | inl _ :: rest =>
      match first_success rest with
      | Some (k, t) => Some (S k, t)
      | None => None
      end
  end.

(** The error of the last outcome, when every outcome is an error. *)
Fixpoint all_errors (rs : list (js_error + option jsstring)) : option (list js_error) :=
  match rs with
  | [] => Some []
  | inr _ :: _ => None
  | inl e :: rest =>
      match all_errors rest with
      | Some es => Some (e :: es)
      | None => None
      end
  end.

End Pipeline.
Export Pipeline.

(* ===================================================================== *)
(** ** getDashboardPrompt                                                  *)
(* ===================================================================== *)

Module Dashboard.

Section WithNumbers.
Context {JN : JsNumber}.

(** The fields the handler destructures from [req.body]. *)
Record Body : Type := {
  assessmentSummary : option jsstring;
  prioritizedVirtues : array_field PrioritizedVirtue;
  (** [Object.entries(stageProgress)], in enumeration order *)
  stageProgress : option (list (jsstring * jsstring));
  recentProgress : option jsstring;
  isFirstTime : nullable bool
}.

(** [isFirstTime] under a test for truth.  The default [false] of the
    destructuring pattern stands in for a missing property; [null] is kept
    and is falsy. *)
Definition first_time (b : Body) : bool :=
  match isFirstTime b with
  | Val x => x
  | Missing | Null => false
  end.

(** [`${isFirstTime}`]: the default is printed for a missing property, and
    [null] as it is. *)
Definition first_time_text (b : Body) : jsstring :=
  match isFirstTime b with
  | Val x => of_bool x
  | Missing => js "false"
  | Null => js "null"
  end.

(** [prioritizedVirtues?.map(...).join('\n') || 'No assessment data available'] *)
Definition virtueList (b : Body) : js_error + jsstring :=
  match prioritizedVirtues b with
  | Absent => inr (js "No assessment data available")
  | NotArray => inl (TypeError (js "prioritizedVirtues?.map is not a function"))
  | IsArray l =>
      inr (or_else (Some (join nl (mapi virtue_line l)))
                   (js "No assessment data available"))
  end.

(** [v.virtueId == virtueId] *)
Definition id_matches (virtueId : jsstring) (v : PrioritizedVirtue) : bool :=
  match Pipeline.virtueId v with
  | Some (IdString s) => str_eqb s virtueId
  | Some (IdOther equals) => equals virtueId
  | None => false
  end.

(** [stage == '1' ? 'Dismantling' : stage == '2' ? 'Building' : 'Practicing'] *)
Definition stageName (stage : option jsstring) : jsstring :=
  match stage with
  | Some s =>
      if str_eqb s (js "1") then js "Dismantling"
      else if str_eqb s (js "2") then js "Building"
      else js "Practicing"
  | None => js "Practicing"
  end.

(** The first two elements of [key.split('-')]. *)
Definition virtueId_of (key : jsstring) : jsstring :=
  hd [] (split_on hyphen key).

Definition stage_of (key : jsstring) : option jsstring :=
  nth_error (split_on hyphen key) 1.

(** [virtue?.virtue || 'Unknown'] for [virtue = prioritizedVirtues?.find(...)] *)
Definition virtue_name (virtues : list PrioritizedVirtue) (virtueId : jsstring) : jsstring :=
  match find (id_matches virtueId) virtues with
  | Some v => or_else (present (virtue v)) (js "Unknown")
  | None => js "Unknown"
  end.

(** The callback of [Object.entries(stageProgress).map]. *)
Definition progress_line (virtues : list PrioritizedVirtue)
    (entry : jsstring * jsstring) : jsstring :=
  let '(key, status) := entry in
  virtue_name virtues (virtueId_of key)
    ++ js " - " ++ stageName (stage_of key) ++ js ": " ++ status.

Definition progressSummary (b : Body) : jsstring :=
  match stageProgress b with
  | Some entries =>
      join nl (map (progress_line (items_of (prioritizedVirtues b))) entries)
  | None => js "No progress data available"
  end.

Definition recentUpdate (b : Body) : jsstring :=
  or_else (recentProgress b) (js "No recent updates").

(** The template literal of lines 84-118, line by line. *)
Definition prompt_lines (assessment virtues progress recent firstTime : jsstring)
  : list jsstring :=
  [ [];
    js "As a virtue development coach, provide personalized next-step guidance for a user viewing their virtue dashboard. Use warm, encouraging language with " ++ dquote ++ js "you" ++ dquote ++ js " to address them directly.";
    [];
    js "**STAGE DEFINITIONS:**";
    js "- Discovery: Complete virtue assessment to identify growth areas";
    js "- Dismantling: Recognize and work through character defects that block virtue";
    js "- Building: Develop understanding and practice of the virtue itself  ";
    js "- Practicing: Apply virtue consistently in daily life (only after completing Dismantling and Building)";
    [];
    js "**USER DATA:**";
    [];
    js "Assessment Summary: " ++ assessment;
    [];
    js "Prioritized Virtues (lowest scores need most work):";
    virtues;
    [];
    js "Current Stage Progress:";
    progress;
    [];
    js "Recent Progress: " ++ recent;
    [];
    js "First-time user: " ++ firstTime;
    [];
    js "**GUIDANCE RULES:**";
    js "1. **PRIMARY FOCUS**: Always direct attention to the LOWEST-SCORING virtue (highest priority for development) from the prioritized list";
    js "2. If first-time/empty dashboard: Encourage starting with #1 lowest-scoring virtue's Dismantling stage";
    js "3. **Structure**: Lead with next step recommendation, then briefly acknowledge progress if relevant";
    js "4. Recommend completing all Dismantling stages before Building, or work virtue-by-virtue (Dismantling " ++ [8594%N] ++ js " Building)";
    js "5. Discourage Practicing until both Dismantling and Building are complete for that virtue";
    js "6. STRICT LIMIT: Maximum 150 words total";
    js "7. End with a specific actionable next step focusing on the lowest-scoring virtue";
    [];
    js "**PRIORITY**: Focus on the #1 virtue (lowest score) unless it's completely finished (both Dismantling and Building completed).";
    [];
    js "Generate a personalized, encouraging message directing them to their next virtue development step. Lead with the recommended action for the lowest-scoring virtue, keep it concise and under 150 words:" ].

(** The prompt of a request, or the error thrown while preparing it. *)
Definition build_prompt (b : Body) : js_error + jsstring :=
  match virtueList b with
  | inl e => inl e
  | inr virtues =>
      inr (join nl
             (prompt_lines
                (or_else (assessmentSummary b) (js "Assessment completed"))
                virtues (progressSummary b) (recentUpdate b)
                (first_time_text b)))
  end.

(** Lines 124-132: the text must be a string ([split] is called on it) and
    is cut to 150 words. *)
Definition accept_text (t : option jsstring) : js_error + option jsstring :=
  match t with
  | None => inl (reading_undefined (js "split"))
  | Some generated => inr (Some (enforce_word_limit 150 generated))
  end.

Definition dashboard : endpoint :=
  {| wording := js "model";
     Wording := js "Model";
     options := {| maxOutputTokens := 200; temperature_tenths := 4;
                   topP_tenths := 8; topK := 40 |};
     accept := accept_text |}.

(** [prioritizedVirtues?.[0]?.virtue || 'your priority virtue'] *)
Definition topVirtue (b : Body) : jsstring :=
  match nth_error (items_of (prioritizedVirtues b)) 0 with
  | Some v => or_else (present (virtue v)) (js "your priority virtue")
  | None => js "your priority virtue"
  end.

(** The message of lines 150-151. *)
Definition fallback_text (b : Body) : jsstring :=
  js "Welcome to your virtue development journey! "
    ++ (if first_time b
        then js "Start by working on " ++ topVirtue b
               ++ js " in the Dismantling stage to begin recognizing character defects."
        else js "Continue your progress by focusing on the next stage of "
               ++ topVirtue b ++ js ".")
    ++ js " Click the stage buttons to begin your reflection.".

(** The handler registered as ['getDashboardPrompt'].  [development] is
    [process.env.NODE_ENV === 'development']. *)
Definition getDashboardPrompt (development : bool) (generate : oracle)
    (req : http_request Body) : http_response * list event :=
  if str_eqb (method req) (js "OPTIONS") then (send 204 EmptyBody, [])
  else
    match body req with
    | NoBody | NonObjectBody =>
        (send 400 (ErrorBody (js "Invalid request body") None), [])
    | ObjectBody b =>
        match build_prompt b with
        | inl error =>
            (send 500 (internal_error development error),
             [ConsoleError (js "Unexpected error in getDashboardPrompt:") (Some error)])
        | inr prompt =>
            let '(st, evs) :=
              try_models dashboard generate prompt 0 modelNames initial_state in
            let '(promptText, evs') :=
              if falsy (generatedText st)
              then (fallback_text b,
                    [ConsoleError (js "All models failed:") (lastError st)])
              else (text_value (generatedText st), []) in
            (send 200 (PromptBody promptText
                         (or_else (Some (successfulModel st)) (js "fallback"))
                         true),
             evs ++ evs')
        end
    end.

End WithNumbers.

End Dashboard.

(* ===================================================================== *)
(** ** getSummaryAnalysis                                                  *)
(* ===================================================================== *)

Module Summary.

Section WithNumbers.
Context {JN : JsNumber}.

(** An element of [analyses]. *)
Record Analysis : Type := {
  a_virtue : nullable jsstring;     (* a.virtue *)
  analysis : nullable jsstring
}.

Record Body : Type := {
  analyses : array_field Analysis;
  prioritizedVirtues : array_field PrioritizedVirtue
}.

(** [prioritizedVirtues.map((v, i) => ...).join('\n')] *)
Definition priorityList (virtues : list PrioritizedVirtue) : jsstring :=
  join nl (mapi virtue_line virtues).

(** [analyses.map(a => `- ${a.virtue}: ${a.analysis}`).join('\n\n')] *)
Definition combinedAnalyses (l : list Analysis) : jsstring :=
  join (nl ++ nl)
       (map (fun a => js "- " ++ interpolate (a_virtue a) ++ js ": "
                        ++ interpolate (analysis a)) l).

(** The template literal of lines 235-252, line by line. *)
Definition prompt_lines (priorities combined : jsstring) : list jsstring :=
  [ [];
    js "          As an expert virtuous coach who empathizes with those in recovery, synthesize the following 12 individual virtue analyses into a single, holistic summary for a practitioner to guide virtue growth. The response should be approximately 200 words. Use " ++ dquote ++ js "you" ++ dquote ++ js " familiar language to address the user directly.";
    [];
    js "          **INPUT DATA:**";
    [];
    js "          **1. User's Prioritized Virtue List (from highest to lowest priority for development):**";
    js "          " ++ priorities;
    [];
    js "          **2. Individual Virtue Analyses:**";
    js "          " ++ combined;
    [];
    js "          **TASKS:**";
    js "          1.  **Identify Overarching Themes:** Analyze all 12 reports to find common patterns or root causes. For example, do issues with Honesty, Integrity, and Responsibility all point to a core challenge with accountability? Or do struggles with Patience and Self-Control indicate a broader issue with emotional regulation?";
    js "          2.  **State the Primary Growth Area:** Begin with a direct statement identifying the user's most significant area for development, referencing the top 2-3 virtues from the priority list that scored the lowest. The lower the score the greater the development need.";
    js "          3.  **Commend Strengths:** Briefly acknowledge any virtues where the user shows relative strength or balance. Virtues with scores above 7.0 can be mentioned here.";
    js "          4.  **Provide a Synthesis:** Briefly explain how the identified themes connect across multiple virtues.";
    js "          5.  **Conclude with a Strategic Recommendation:** Offer a high-level recommendation or a key question for the practitioner to focus on with the user that addresses the core theme.";
    js "          6.  Keep the entire response under 300 words." ].

Definition build_prompt (l : list Analysis) (virtues : list PrioritizedVirtue) : jsstring :=
  join nl (prompt_lines (priorityList virtues) (combinedAnalyses l)).

(** Line 258: the text is assigned as it is, [undefined] included. *)
Definition accept_text (t : option jsstring) : js_error + option jsstring :=
  inr t.

Definition summary : endpoint :=
  {| wording := js "summary model";
     Wording := js "Summary model";
     options := {| maxOutputTokens := 1024; temperature_tenths := 7;
                   topP_tenths := 8; topK := 40 |};
     accept := accept_text |}.

(** An element of an array under [join]: [undefined] and [null] print as
    nothing. *)
Definition joined (x : nullable jsstring) : jsstring :=
  match x with
  | Val s => s
  | Missing | Null => []
  end.

(** [prioritizedVirtues.slice(0, 2).map(v => v.virtue).join(' and ')] *)
Definition top_two (virtues : list PrioritizedVirtue) : jsstring :=
  join (js " and ") (map (fun v => joined (virtue v)) (firstn 2 virtues)).

(** The message of line 276. *)
Definition fallback_text (virtues : list PrioritizedVirtue) : jsstring :=
  js "A full summary could not be generated at this time. Based on the data, the primary areas for development appear to be "
    ++ top_two virtues
    ++ js ". Focusing on the root causes of challenges in these areas is a recommended next step.".

(** Line 191: the two arrays of a body that passes the validation. *)
Definition validate (rb : http_body Body)
  : option (list Analysis * list PrioritizedVirtue) :=
  match rb with
  | ObjectBody b =>
      match analyses b, prioritizedVirtues b with
      | IsArray l, IsArray virtues => Some (l, virtues)
      | _, _ => None
      end
  | NoBody | NonObjectBody => None
  end.

(** The handler registered as ['getSummaryAnalysis']. *)
Definition getSummaryAnalysis (development : bool) (generate : oracle)
    (req : http_request Body) : http_response * list event :=
  if str_eqb (method req) (js "OPTIONS") then (send 204 EmptyBody, [])
  else
    match validate (body req) with
    | None =>
        (send 400
           (ErrorBody
              (js "Invalid request body: Expected analyses and prioritizedVirtues arrays.")
              None),
         [])
    | Some (l, virtues) =>
        let '(st, evs) :=
          try_models summary generate (build_prompt l virtues) 0 modelNames
                     initial_state in
        let '(summaryText, evs') :=
          if falsy (generatedText st)
          then (fallback_text virtues,
                [ConsoleError (js "All summary models failed:") (lastError st)])
          else (text_value (generatedText st), []) in
        (send 200 (SummaryBody summaryText
                     (or_else (Some (successfulModel st)) (js "fallback"))
                     true),
         evs ++ evs')
    end.

End WithNumbers.

End Summary.

(* ===================================================================== *)
(** ** Vocabulary of the properties                                        *)
(* ===================================================================== *)


(** A script of outcomes as an oracle: the [i]-th call of the request gets
    the [i]-th outcome, and a call past the script is rejected. *)
Definition scripted (script : list gen_result) : oracle :=
  fun i _ => nth i script (Rejected (Error (js "unavailable"))).

(** A text of [n] copies of the word [w], separated by single spaces. *)
Definition repeated_word (w : jsstring) (n : nat) : jsstring :=
  join (js " ") (repeat w n).

(** The models a trace invoked, in order. *)
Definition invoked_models (evs : list event) : list jsstring :=
  map model (invocations evs).

(** The last [console.error] diagnostic of a trace, if any. *)
Fixpoint last_diagnostic (evs : list event) : option (jsstring * option js_error) :=
  match evs with
  | [] => None
  | ev :: rest =>
      match last_diagnostic rest with
      | Some d => Some d
      | None =>
          match ev with
          | ConsoleError msg err => Some (msg, err)
          | _ => None
          end
      end
  end.

(** A dashboard body whose [prioritizedVirtues] is missing or an array:
    the shape the handler is written for. *)
Definition dashboard_well_formed {JN : JsNumber} (b : Dashboard.Body) : Prop :=
  Dashboard.prioritizedVirtues b <> NotArray.

(** The outcomes of the five candidates for a dashboard request. *)
Definition dashboard_outcomes {JN : JsNumber} (generate : oracle) (b : Dashboard.Body)
  : list (js_error + option jsstring) :=
  match Dashboard.build_prompt b with
  | inr prompt => outcomes_from Dashboard.dashboard generate prompt 0 modelNames
  | inl _ => []
  end.

(** The outcomes of the five candidates for a validated summary request. *)
Definition summary_outcomes {JN : JsNumber} (generate : oracle)
    (l : list Summary.Analysis) (virtues : list PrioritizedVirtue)
  : list (js_error + option jsstring) :=
  outcomes_from Summary.summary generate (Summary.build_prompt l virtues) 0 modelNames.

(** A field that holds no array. *)
Definition lacks_array {A : Type} (f : array_field A) : Prop :=
  forall l, f <> IsArray l.

(** A summary body that is not an object, or lacks one of the two arrays. *)
Definition summary_malformed {JN : JsNumber} (rb : http_body Summary.Body) : Prop :=
  match rb with
  | ObjectBody b =>
      lacks_array (Summary.analyses b) \/ lacks_array (Summary.prioritizedVirtues b)
  | NoBody | NonObjectBody => True
  end.

(** The request [{}] to the dashboard endpoint. *)
Definition empty_dashboard_request {JN : JsNumber} : http_request Dashboard.Body :=
  {| method := js "POST";
     body := ObjectBody {| Dashboard.assessmentSummary := None;
                           Dashboard.prioritizedVirtues := Absent;
                           Dashboard.stageProgress := None;
                           Dashboard.recentProgress := None;
                           Dashboard.isFirstTime := Missing |} |}.

(** A summary request with the given arrays. *)
Definition summary_request {JN : JsNumber} (l : list Summary.Analysis)
    (virtues : list PrioritizedVirtue) : http_request Summary.Body :=
  {| method := js "POST";
     body := ObjectBody {| Summary.analyses := IsArray l;
                           Summary.prioritizedVirtues := IsArray virtues |} |}.

(** A virtue with a name, an id (the numeral of [id], as a string) and a
    defect intensity in tenths. *)
Definition sample_virtue (name : string) (id tenths : Z) : @PrioritizedVirtue DeciNumber :=
  {| virtue := Val (js name);
     virtueId := Some (IdString (decimal (Z.to_nat id)));
     defectIntensity := Val (Deci.Tenths tenths) |}.

(** A dashboard request with one virtue and three progress entries. *)
Definition sample_dashboard_body : @Dashboard.Body DeciNumber :=
  {| Dashboard.assessmentSummary := None;
     Dashboard.prioritizedVirtues := IsArray [sample_virtue "Honesty" 3 80];
     Dashboard.stageProgress :=
       Some [ (js "3-1", js "completed");
              (js "7-2", js "in_progress");
              (js "3-x", js "open") ];
     Dashboard.recentProgress := None;
     Dashboard.isFirstTime := Val true |}.

Definition sample_dashboard_request : http_request (@Dashboard.Body DeciNumber) :=
  {| method := js "POST"; body := ObjectBody sample_dashboard_body |}.

(** A rejection with the given message. *)
Definition failure (msg : string) : gen_result := Rejected (Error (js msg)).

(** A response carrying the given text. *)
Definition answer (t : jsstring) : gen_result := Resolved (response_with_text (Some t)).

(** Five outcomes that all fail, each in its own way: a rejected call, a
    response without candidates, one with an empty candidate list, one whose
    content has no parts, and one whose first candidate has no content. *)
Definition five_failures : list gen_result :=
  [ failure "quota exceeded";
    Resolved {| candidates := None |};
    Resolved {| candidates := Some [] |};
    Resolved {| candidates := Some [ {| content := Some {| parts := None |} |} ] |};
    Resolved {| candidates := Some [ {| content := None |} ] |} ].

(** A text of two hundred words. *)
Definition two_hundred_words : jsstring := repeated_word (js "word") 200.

(** A text of one hundred and fifty words that ends with a line break. *)
Definition full_length_text : jsstring := repeated_word (js "word") 150 ++ nl.

(** A text of two hundred words that starts with a space. *)
Definition indented_text : jsstring := js " " ++ two_hundred_words.

(** A summary request whose [analyses] is not an array. *)
Definition summary_without_analyses : http_request (@Summary.Body DeciNumber) :=
  {| method := js "POST";
     body := ObjectBody {| Summary.analyses := NotArray;
                           Summary.prioritizedVirtues := IsArray [] |} |}.

(** The priority list of the documentation's example. *)
Definition honesty_and_patience : list (@PrioritizedVirtue DeciNumber) :=
  [ {| virtue := Val (js "Honesty"); virtueId := None; defectIntensity := Missing |};
    {| virtue := Val (js "Patience"); virtueId := None; defectIntensity := Missing |} ].

(** A text that starts (ends) with a character that is not whitespace;
    the empty text does neither. *)
Definition starts_with_word (s : jsstring) : bool := negb (is_space (hd 32%N s)).

Definition ends_with_word (s : jsstring) : bool := negb (is_space (last s 32%N)).

(** A piece without whitespace. *)
Definition spacefree (p : jsstring) : Prop := Forall (fun c => is_space c = false) p.

(** [l] with [suffix] appended to its last element. *)
Fixpoint append_last (suffix : jsstring) (l : list jsstring) : list jsstring :=
  match l with
  | [] => []
  | [x] => [x ++ suffix]
  | x :: rest => x :: append_last suffix rest
  end.

(** A dashboard request whose [prioritizedVirtues] is not an array. *)
Definition dashboard_with_bad_virtues : http_request (@Dashboard.Body DeciNumber) :=
  {| method := js "POST";
     body := ObjectBody {| Dashboard.assessmentSummary := None;
                           Dashboard.prioritizedVirtues := NotArray;
                           Dashboard.stageProgress := None;
                           Dashboard.recentProgress := None;
                           Dashboard.isFirstTime := Missing |} |}.

(** A preflight request. *)
Definition preflight (A : Type) : http_request A :=
  {| method := js "OPTIONS"; body := NoBody |}.

(** The errors of the attempts that failed before the first success (all
    of them when there is none), in order. *)
Fixpoint leading_errors (rs : list (js_error + option jsstring)) : list js_error :=
  match rs with
  | inl e :: rest => e :: leading_errors rest
  | _ => []
  end.

(** The [console.warn] lines of a trace, in order. *)
Fixpoint warnings (evs : list event) : list (jsstring * jsstring) :=
  match evs with
  | [] => []
  | ConsoleWarn msg detail :: rest => (msg, detail) :: warnings rest
  | _ :: rest => warnings rest
  end.

(** The [console.warn] line of the loop for candidate [m] failing with [e]. *)
Definition warning_for (ep : endpoint) (m : jsstring) (e : js_error)
  : jsstring * jsstring :=
  (Wording ep ++ js " " ++ m ++ js " failed:", message e).

(** Two oracles that answer alike up to and including call [k]. *)
Definition agree_up_to (k : nat) (generate generate' : oracle) : Prop :=
  forall j c, j <= k -> generate j c = generate' j c.

(** The shape of an answer of the dashboard handler: the CORS headers, and
    a document that fits the status. *)
Definition dashboard_answer_shape (r : http_response) : Prop :=
  headers r = cors_headers
  /\ match payload r with
     | EmptyBody => status r = 204%N
     | ErrorBody _ details => (status r = 400%N /\ details = None) \/ status r = 500%N
     | PromptBody _ used success => status r = 200%N /\ success = true /\ used <> []
     | SummaryBody _ _ _ => False
     end.

(** The shape of an answer of the summary handler. *)
Definition summary_answer_shape (r : http_response) : Prop :=
  headers r = cors_headers
  /\ match payload r with
     | EmptyBody => status r = 204%N
     | ErrorBody _ details => (status r = 400%N /\ details = None) \/ status r = 500%N
     | SummaryBody _ used success => status r = 200%N /\ success = true /\ used <> []
     | PromptBody _ _ _ => False
     end.

(** The lines of the dashboard template before and after the data of the
    request; neither depends on the request. *)
Definition dashboard_preamble : jsstring :=
  join nl (firstn 11 (Dashboard.prompt_lines [] [] [] [] [])).

Definition dashboard_rules : jsstring :=
  join nl (skipn 22 (Dashboard.prompt_lines [] [] [] [] [])).

(** The lines of the summary template after the two data sections. *)
Definition summary_tasks : jsstring :=
  join nl (skipn 10 (Summary.prompt_lines [] [])).

(** A character that is no whitespace other than the plain space. *)
Definition plain (c : N) : Prop := is_space c = true -> c = 32%N.

(** A dashboard request whose body is not an object. *)
Definition dashboard_without_body : http_request (@Dashboard.Body DeciNumber) :=
  {| method := js "POST"; body := NonObjectBody |}.

(** A virtue whose id is a string with hyphens. *)
Definition uuid_virtue : @PrioritizedVirtue DeciNumber :=
  {| virtue := Val (js "Honesty");
     virtueId := Some (IdString (js "a-b"));
     defectIntensity := Missing |}.

(** An analysis of one virtue. *)
Definition sample_analysis : Summary.Analysis :=
  {| Summary.a_virtue := Val (js "Honesty");
     Summary.analysis := Val (js "You tell the truth when it is easy.") |}.

(** Two hundred words, one per line. *)
Definition two_hundred_lines : jsstring := join nl (repeat (js "word") 200).

(** The generated text of a call's result, read where the documentation
    places it: the text of the first part of the first candidate's content.
    A rejected call holds none, nor does a response without that part. *)
Definition text_of_response (r : gen_result) : option jsstring :=
  match r with
  | Rejected _ => None
  | Resolved response =>
      match candidates response with
      | Some (c :: _) =>
          match content c with
          | Some ct =>
              match parts ct with
              | Some (p :: _) => text p
              | Some [] | None => None
              end
          | None => None
          end
      | Some [] | None => None
      end
  end.

(** A structurally valid response, in the words of the documentation: a
    generated text that is not empty, at the expected position. *)
Definition structurally_valid (r : gen_result) : bool :=
  match text_of_response r with
  | Some (_ :: _) => true
  | Some [] | None => false
  end.

(** A result without a text part: the call was rejected, or the response
    has no first candidate, or no content in it, or no first part. *)
Definition no_part (r : gen_result) : bool :=
  match r with
  | Rejected _ => true
  | Resolved response =>
      match candidates response with
      | Some (c :: _) =>
          match content c with
          | Some ct =>
              match parts ct with
              | Some (_ :: _) => false
              | Some [] | None => true
              end
          | None => true
          end
      | Some [] | None => true
      end
  end.

(** An empty answer first, a good one second. *)
Definition empty_then_text : list gen_result :=
  [answer []; answer (js "Keep going.")].

(** A service that answers every call with an empty text. *)
Definition always_empty : oracle := fun _ _ => answer [].

(** Four rejected calls, then an empty answer. *)
Definition four_failures_then_empty : list gen_result :=
  [failure "first"; failure "second"; failure "third"; failure "fourth"; answer []].

(** A rejected call, an empty answer, and three more rejected calls. *)
Definition failure_then_empty : list gen_result :=
  [failure "first"; answer []; failure "third"; failure "fourth"; failure "fifth"].

(** The body [{}]. *)
Definition empty_dashboard_body {JN : JsNumber} : Dashboard.Body :=
  {| Dashboard.assessmentSummary := None;
     Dashboard.prioritizedVirtues := Absent;
     Dashboard.stageProgress := None;
     Dashboard.recentProgress := None;
     Dashboard.isFirstTime := Missing |}.


(** A virtue whose name and intensity are [null]. *)
Definition null_virtue : @PrioritizedVirtue DeciNumber :=
  {| virtue := Null; virtueId := None; defectIntensity := Null |}.




(** Two rejected calls, then an answer of two hundred words. *)
Definition two_failures_then_text : list gen_result :=
  [failure "first"; failure "second"; answer two_hundred_words].

(** The summary request of the examples: no analyses, two virtues. *)
Definition sample_summary_request : http_request (@Summary.Body DeciNumber) :=
  summary_request [] honesty_and_patience.

(** The call the handlers make to the third candidate. *)
Definition third_summary_call : generation_call :=
  call_for Summary.summary (Summary.build_prompt [] honesty_and_patience)
           (js "gemini-1.5-flash-lite").

Definition third_dashboard_call : generation_call :=
  {| model := js "gemini-1.5-flash-lite";
     generationConfig := options Dashboard.dashboard;
     safety := safetySettings;
     call_prompt :=
       match Dashboard.build_prompt sample_dashboard_body with
       | inr prompt => prompt
       | inl _ => []
       end |}.

(** Four responses without a text part, then a rejected call. *)
Definition failures_ending_rejected : list gen_result :=
  [ Resolved {| candidates := None |};
    Resolved {| candidates := Some [] |};
    Resolved {| candidates := Some [ {| content := Some {| parts := None |} |} ] |};
    Resolved {| candidates := Some [ {| content := None |} ] |};
    failure "quota exceeded" ].

(** A summary request whose first virtue has a [null] name and intensity. *)
Definition null_then_patience : list (@PrioritizedVirtue DeciNumber) :=
  [ null_virtue;
    {| virtue := Val (js "Patience"); virtueId := None; defectIntensity := Missing |} ].

(* ===================================================================== *)
(** ** Strings: equality, occurrence, splitting                            *)
(* ===================================================================== *)

Lemma str_eqb_spec (a b : jsstring) : str_eqb a b = true <-> a = b.
Proof.
  revert b; induction a as [|x a IH]; intros [|y b]; simpl; split;
    try congruence; try reflexivity.
  - intros H. apply andb_true_iff in H as [Hx Hab].
    apply N.eqb_eq in Hx. apply IH in Hab. congruence.
  - intros H. injection H as -> ->.
    rewrite N.eqb_refl. simpl. now apply IH.
Qed.

Lemma str_eqb_refl (a : jsstring) : str_eqb a a = true.
Proof. now apply str_eqb_spec. Qed.

Lemma str_eqb_neq (a b : jsstring) : a <> b -> str_eqb a b = false.
Proof.
  intros H. destruct (str_eqb a b) eqn:E; [|reflexivity].
  apply str_eqb_spec in E. contradiction.
Qed.

Lemma occurs_in_refl (x : jsstring) : occurs_in x x.
Proof. exists [], []. now rewrite app_nil_r. Qed.

Lemma occurs_in_app (x h a b : jsstring) :
  occurs_in x h -> occurs_in x (a ++ h ++ b).
Proof.
  intros (pre & post & ->). exists (a ++ pre), (post ++ b).
  now rewrite !app_assoc.
Qed.

Lemma occurs_in_app_r (x h a : jsstring) : occurs_in x h -> occurs_in x (a ++ h).
Proof.
  intros H. apply (occurs_in_app a []) in H. now rewrite app_nil_r in H.
Qed.

Lemma occurs_in_app_l (x h b : jsstring) : occurs_in x h -> occurs_in x (h ++ b).
Proof. intros H. now apply (occurs_in_app [] b) in H. Qed.

Lemma occurs_in_trans (x y z : jsstring) :
  occurs_in x y -> occurs_in y z -> occurs_in x z.
Proof. intros Hxy (pre & post & ->). now apply occurs_in_app. Qed.

Lemma join_cons2 (sep x y : jsstring) (l : list jsstring) :
  join sep (x :: y :: l) = x ++ sep ++ join sep (y :: l).
Proof. reflexivity. Qed.

(** Every element of a joined list occurs in the result. *)
Lemma occurs_in_join (sep : jsstring) (l : list jsstring) :
  forall k x, nth_error l k = Some x -> occurs_in x (join sep l).
Proof.
  induction l as [|x0 l IH]; intros k x Hk.
  - now destruct k.
  - destruct l as [|y l].
    + destruct k as [|k]; simpl in Hk.
      * injection Hk as ->. apply occurs_in_refl.
      * now destruct k.
    + rewrite join_cons2. destruct k as [|k]; simpl in Hk.
      * injection Hk as ->. apply occurs_in_app_l, occurs_in_refl.
      * apply occurs_in_app_r, occurs_in_app_r. now apply (IH k).
Qed.

Lemma occurs_in_join_In (sep : jsstring) (l : list jsstring) (x : jsstring) :
  In x l -> occurs_in x (join sep l).
Proof.
  intros H. apply In_nth_error in H as [k Hk]. now apply occurs_in_join with k.
Qed.

Lemma nth_error_mapi_from {A B : Type} (f : nat -> A -> B) (l : list A) :
  forall i k x, nth_error l k = Some x ->
                nth_error (mapi_from f i l) k = Some (f (i + k) x).
Proof.
  induction l as [|a l IH]; intros i k x Hk.
  - now destruct k.
  - destruct k as [|k]; simpl in *.
    + injection Hk as ->. now rewrite Nat.add_0_r.
    + rewrite (IH (S i) k x Hk). f_equal. f_equal. lia.
Qed.

(** [split] never returns an empty array. *)
Lemma split_on_nonempty (sep : N) (s : jsstring) : split_on sep s <> [].
Proof.
  destruct s as [|c s]; simpl; [discriminate|].
  destruct (c =? sep)%N; [discriminate|].
  destruct (split_on sep s); discriminate.
Qed.

Lemma split_ws_nonempty (s : jsstring) : split_ws s <> [].
Proof.
  induction s as [|c s IH]; simpl; [discriminate|].
  destruct (is_space c).
  - destruct s as [|c' s']; [discriminate|].
    destruct (is_space c'); [exact IH | discriminate].
  - destruct (split_ws s); discriminate.
Qed.

(** A separator-free prefix followed by the separator is the first piece. *)
Lemma split_on_prefix (sep : N) (id rest : jsstring) :
  ~ In sep id ->
  split_on sep (id ++ sep :: rest) = id :: split_on sep rest.
Proof.
  induction id as [|c id IH]; intros Hid; simpl.
  - now rewrite N.eqb_refl.
  - destruct (N.eqb_spec c sep) as [->|Hc].
    + exfalso. apply Hid. now left.
    + rewrite IH; [reflexivity|]. intros H. apply Hid. now right.
Qed.

Lemma split_on_whole (sep : N) (s : jsstring) :
  ~ In sep s -> split_on sep s = [s].
Proof.
  induction s as [|c s IH]; intros Hs; simpl; [reflexivity|].
  destruct (N.eqb_spec c sep) as [->|Hc].
  - exfalso. apply Hs. now left.
  - rewrite IH; [reflexivity|]. intros H. apply Hs. now right.
Qed.

(* ===================================================================== *)
(** ** The loop over the candidates                                        *)
(* ===================================================================== *)

Lemma invocations_app (a b : list event) :
  invocations (a ++ b) = invocations a ++ invocations b.
Proof.
  induction a as [|ev a IH]; simpl; [reflexivity|].
  destruct ev; simpl; now rewrite IH.
Qed.

Lemma last_diagnostic_app (a b : list event) :
  last_diagnostic (a ++ b)
  = match last_diagnostic b with
    | Some d => Some d
    | None => last_diagnostic a
    end.
Proof.
  induction a as [|ev a IH]; simpl.
  - now destruct (last_diagnostic b).
  - rewrite IH. now destruct (last_diagnostic b).
Qed.

(** The loop against its outcomes: it stops at the first outcome that is
    not an error, has then assigned that outcome's text and candidate, and
    has called exactly the candidates up to it, in order.  With no such
    outcome it has called every candidate and assigned neither variable. *)
Lemma try_models_first_success (ep : endpoint) (generate : oracle) (prompt : jsstring) :
  forall models i st,
    let run := try_models ep generate prompt i models st in
    match first_success (outcomes_from ep generate prompt i models) with
    | Some (k, t) =>
        generatedText (fst run) = t
        /\ nth_error models k = Some (successfulModel (fst run))
        /\ invocations (snd run) = map (call_for ep prompt) (firstn (S k) models)
    | None =>
        generatedText (fst run) = generatedText st
        /\ successfulModel (fst run) = successfulModel st
        /\ invocations (snd run) = map (call_for ep prompt) models
    end.
Proof.
  induction models as [|m rest IH]; intros i st; simpl.
  - auto.
  - destruct (attempt ep (generate i (call_for ep prompt m))) as [e|t] eqn:Ha; simpl.
    + specialize (IH (S i)
        {| generatedText := generatedText st; lastError := Some e;
           successfulModel := successfulModel st |}).
      simpl in IH.
      destruct (try_models ep generate prompt (S i) rest _) as [st' evs] eqn:Hr.
      simpl in *.
      destruct (first_success (outcomes_from ep generate prompt (S i) rest))
        as [[k t]|]; simpl.
      * destruct IH as (H1 & H2 & H3). repeat split; try assumption.
        now rewrite H3.
      * destruct IH as (H1 & H2 & H3). repeat split; try assumption.
        now rewrite H3.
    + repeat split.
Qed.

Lemma last_cons_default {A : Type} (l : list A) (a d d' : A) :
  last (a :: l) d = last (a :: l) d'.
Proof.
  revert a; induction l as [|b l IH]; intros a; [reflexivity|].
  change (last (b :: l) d = last (b :: l) d'). apply IH.
Qed.

(** When every outcome is an error the loop ends with the last of them in
    [lastError] and has printed no [console.error] itself. *)
Lemma try_models_all_errors (ep : endpoint) (generate : oracle) (prompt : jsstring) :
  forall models i st errors,
    all_errors (outcomes_from ep generate prompt i models) = Some errors ->
    let run := try_models ep generate prompt i models st in
    fst run = {| generatedText := generatedText st;
                 lastError := last (map Some errors) (lastError st);
                 successfulModel := successfulModel st |}
    /\ last_diagnostic (snd run) = None
    /\ invocations (snd run) = map (call_for ep prompt) models.
Proof.
  induction models as [|m rest IH]; intros i st errors Hall; simpl in *.
  - injection Hall as <-. simpl. destruct st; auto.
  - destruct (attempt ep (generate i (call_for ep prompt m))) as [e|t] eqn:Ha;
      [|discriminate].
    destruct (all_errors (outcomes_from ep generate prompt (S i) rest))
      as [es|] eqn:Hes; [|discriminate].
    injection Hall as <-.
    specialize (IH (S i)
      {| generatedText := generatedText st; lastError := Some e;
         successfulModel := successfulModel st |} es Hes).
    simpl in IH.
    destruct (try_models ep generate prompt (S i) rest _) as [st' evs] eqn:Hr.
    simpl in *. destruct IH as (H1 & H2 & H3). repeat split.
    + rewrite H1. f_equal. destruct es; [reflexivity|]. apply last_cons_default.
    + now rewrite H2.
    + now rewrite H3.
Qed.

(* ===================================================================== *)
(** ** The handlers, unfolded                                              *)
(* ===================================================================== *)

Section Handlers.
Context {JN : JsNumber}.

Lemma all_errors_map (rs : list (js_error + option jsstring)) (errors : list js_error) :
  all_errors rs = Some errors -> rs = map inl errors.
Proof.
  revert errors; induction rs as [|[e|t] rs IH]; intros errors H; simpl in H.
  - now injection H as <-.
  - destruct (all_errors rs) as [es|]; [|discriminate].
    injection H as <-. simpl. f_equal. now apply IH.
  - discriminate.
Qed.

Lemma outcomes_from_length (ep : endpoint) (generate : oracle) (prompt : jsstring) :
  forall models i, length (outcomes_from ep generate prompt i models) = length models.
Proof. induction models as [|m rest IH]; intros i; simpl; auto. Qed.

Lemma well_formed_prompt (b : Dashboard.Body) :
  dashboard_well_formed b -> exists prompt, Dashboard.build_prompt b = inr prompt.
Proof.
  unfold dashboard_well_formed, Dashboard.build_prompt, Dashboard.virtueList.
  intros H. destruct (Dashboard.prioritizedVirtues b); eauto. contradiction.
Qed.

(** The dashboard handler past its guards: the loop, then the answer. *)
Lemma getDashboardPrompt_run (development : bool) (generate : oracle)
    (req : http_request Dashboard.Body) (b : Dashboard.Body) (prompt : jsstring) :
  method req <> js "OPTIONS" ->
  body req = ObjectBody b ->
  Dashboard.build_prompt b = inr prompt ->
  forall st evs,
    try_models Dashboard.dashboard generate prompt 0 modelNames initial_state = (st, evs) ->
    Dashboard.getDashboardPrompt development generate req
    = (send 200
         (PromptBody
            (if falsy (generatedText st) then Dashboard.fallback_text b
             else text_value (generatedText st))
            (or_else (Some (successfulModel st)) (js "fallback")) true),
       evs ++ (if falsy (generatedText st)
               then [ConsoleError (js "All models failed:") (lastError st)]
               else [])).
Proof.
  intros Hm Hb Hp st evs Hrun. unfold Dashboard.getDashboardPrompt.
  rewrite (str_eqb_neq Hm), Hb, Hp, Hrun.
  now destruct (falsy (generatedText st)).
Qed.

(** The summary handler past its guards. *)
Lemma getSummaryAnalysis_run (development : bool) (generate : oracle)
    (req : http_request Summary.Body) (l : list Summary.Analysis)
    (virtues : list PrioritizedVirtue) :
  method req <> js "OPTIONS" ->
  Summary.validate (body req) = Some (l, virtues) ->
  forall st evs,
    try_models Summary.summary generate (Summary.build_prompt l virtues) 0
               modelNames initial_state = (st, evs) ->
    Summary.getSummaryAnalysis development generate req
    = (send 200
         (SummaryBody
            (if falsy (generatedText st) then Summary.fallback_text virtues
             else text_value (generatedText st))
            (or_else (Some (successfulModel st)) (js "fallback")) true),
       evs ++ (if falsy (generatedText st)
               then [ConsoleError (js "All summary models failed:") (lastError st)]
               else [])).
Proof.
  intros Hm Hv st evs Hrun. unfold Summary.getSummaryAnalysis.
  rewrite (str_eqb_neq Hm), Hv, Hrun.
  now destruct (falsy (generatedText st)).
Qed.

(** After five errors the diagnostic holds the fifth. *)
Lemma last_of_five (errors : list js_error) (rs : list (js_error + option jsstring)) :
  all_errors rs = Some errors ->
  length rs = 5 ->
  exists e5, nth_error rs 4 = Some (inl e5)
             /\ last (map Some errors) None = Some e5.
Proof.
  intros Hall Hlen. apply all_errors_map in Hall. subst rs.
  rewrite length_map in Hlen.
  destruct errors as [|e1 [|e2 [|e3 [|e4 [|e5 [|e6 errors]]]]]]; try discriminate.
  exists e5. split; reflexivity.
Qed.

End Handlers.

(* ===================================================================== *)
(** ** Requests the summary handler rejects                                *)
(* ===================================================================== *)

Section Validation.
Context {JN : JsNumber}.

(** C8.  A request to the summary endpoint whose body is missing, is not an
    object, or holds no [analyses] array or no [prioritizedVirtues] array is
    answered with status 400 and an error message, and the trace of the
    handler is empty: no candidate is called. *)
Theorem malformed_summary_request_is_rejected (development : bool) (generate : oracle)
    (req : http_request Summary.Body) :
  method req <> js "OPTIONS" ->
  summary_malformed (body req) ->
  Summary.getSummaryAnalysis development generate req
  = (send 400
       (ErrorBody
          (js "Invalid request body: Expected analyses and prioritizedVirtues arrays.")
          None),
     [])
  /\ invocations (snd (Summary.getSummaryAnalysis development generate req)) = [].
Proof.
  intros Hm Hbad.
  assert (Hv : Summary.validate (body req) = None).
  { unfold summary_malformed in Hbad. unfold Summary.validate.
    destruct (body req) as [| |b]; try reflexivity.
    destruct (Summary.analyses b) as [| |l] eqn:Ha; try reflexivity.
    destruct (Summary.prioritizedVirtues b) as [| |vs] eqn:Hp; try reflexivity.
    destruct Hbad as [H|H]; [now elim (H l) | now elim (H vs)]. }
  unfold Summary.getSummaryAnalysis.
  rewrite (str_eqb_neq Hm), Hv. split; reflexivity.
Qed.

End Validation.

(* ===================================================================== *)
(** ** The context builder                                                 *)
(* ===================================================================== *)

Lemma join_app (sep : jsstring) (a b : list jsstring) :
  a <> [] -> b <> [] -> join sep (a ++ b) = join sep a ++ sep ++ join sep b.
Proof.
  induction a as [|x a IH]; intros Ha Hb; [contradiction|].
  destruct a as [|y a].
  - destruct b as [|z b]; [contradiction|]. reflexivity.
  - change ((x :: y :: a) ++ b) with (x :: y :: (a ++ b)).
    rewrite !join_cons2.
    change (y :: a ++ b) with ((y :: a) ++ b).
    rewrite IH by (assumption || discriminate).
    now rewrite <- !app_assoc.
Qed.

(** A run of consecutive lines occurs in the joined text. *)
Lemma occurs_in_join_sub (sep : jsstring) (pre mid post : list jsstring) :
  mid <> [] -> occurs_in (join sep mid) (join sep (pre ++ mid ++ post)).
Proof.
  intros Hmid.
  assert (Hright : occurs_in (join sep mid) (join sep (mid ++ post))).
  { destruct post as [|p post].
    - rewrite app_nil_r. apply occurs_in_refl.
    - rewrite join_app by (assumption || discriminate).
      apply occurs_in_app_l, occurs_in_refl. }
  destruct pre as [|p pre]; [exact Hright|].
  rewrite join_app.
  - now apply occurs_in_app_r, occurs_in_app_r.
  - discriminate.
  - destruct mid; [contradiction|discriminate].
Qed.

Section ContextBuilder.
Context {JN : JsNumber}.


(** Each of the five inputs of the template is a line of the prompt, or
    the tail of one. *)
Lemma prompt_lines_occurrences (assessment virtues progress recent firstTime : jsstring) :
  let prompt :=
    join nl (Dashboard.prompt_lines assessment virtues progress recent firstTime) in
  occurs_in virtues prompt
  /\ occurs_in progress prompt
  /\ occurs_in (js "Prioritized Virtues (lowest scores need most work):" ++ nl ++ virtues)
               prompt
  /\ occurs_in (js "Current Stage Progress:" ++ nl ++ progress) prompt
  /\ occurs_in (js "Recent Progress: " ++ recent) prompt.
Proof.
  intros prompt. subst prompt.
  set (lines := Dashboard.prompt_lines assessment virtues progress recent firstTime).
  refine (conj _ (conj _ (conj _ (conj _ _)))).
  - now apply occurs_in_join with 14.
  - now apply occurs_in_join with 17.
  - change (js "Prioritized Virtues (lowest scores need most work):" ++ nl ++ virtues)
      with (join nl (firstn 2 (skipn 13 lines))).
    change lines with (firstn 13 lines ++ firstn 2 (skipn 13 lines) ++ skipn 15 lines).
    apply occurs_in_join_sub. discriminate.
  - change (js "Current Stage Progress:" ++ nl ++ progress)
      with (join nl (firstn 2 (skipn 16 lines))).
    change lines with (firstn 16 lines ++ firstn 2 (skipn 16 lines) ++ skipn 18 lines).
    apply occurs_in_join_sub. discriminate.
  - now apply occurs_in_join with 19.
Qed.

(** Every progress entry is rendered into the prompt. *)
Lemma progress_line_in_summary (b : Dashboard.Body)
    (entries : list (jsstring * jsstring)) (entry : jsstring * jsstring) :
  Dashboard.stageProgress b = Some entries ->
  In entry entries ->
  occurs_in
    (Dashboard.progress_line (items_of (Dashboard.prioritizedVirtues b)) entry)
    (Dashboard.progressSummary b).
Proof.
  intros Hsp Hin. unfold Dashboard.progressSummary. rewrite Hsp.
  apply occurs_in_join_In. now apply in_map.
Qed.


(** C10.  Every progress entry is rendered into the prompt; its stage name
    is "Practicing" whenever the second piece of the key is neither "1" nor
    "2" (a "3", any other text, or no second piece at all), and its virtue
    name is "Unknown" whenever no prioritized virtue has the id the key
    starts with. *)
Theorem other_stage_tokens_and_unknown_ids (b : Dashboard.Body) :
  dashboard_well_formed b ->
  exists prompt,
    Dashboard.build_prompt b = inr prompt
    /\ forall entries key status,
        Dashboard.stageProgress b = Some entries ->
        In (key, status) entries ->
        let virtues := items_of (Dashboard.prioritizedVirtues b) in
        let line := Dashboard.progress_line virtues (key, status) in
        occurs_in line prompt
        /\ (Dashboard.stage_of key <> Some (js "1") ->
            Dashboard.stage_of key <> Some (js "2") ->
            line = Dashboard.virtue_name virtues (Dashboard.virtueId_of key)
                     ++ js " - Practicing: " ++ status)
        /\ ((forall v, In v virtues ->
                       Dashboard.id_matches (Dashboard.virtueId_of key) v = false) ->
            line = js "Unknown - " ++ Dashboard.stageName (Dashboard.stage_of key)
                     ++ js ": " ++ status).
Proof.
  intros Hwf. destruct (well_formed_prompt Hwf) as [prompt Hp].
  exists prompt. split; [exact Hp|].
  intros entries key status Hsp Hin virtues line.
  unfold Dashboard.build_prompt in Hp.
  destruct (Dashboard.virtueList b) as [e|vl]; [discriminate|].
  injection Hp as <-.
  destruct (prompt_lines_occurrences
              (or_else (Dashboard.assessmentSummary b) (js "Assessment completed"))
              vl (Dashboard.progressSummary b) (Dashboard.recentUpdate b)
              (Dashboard.first_time_text b))
    as (_ & Hpr & _).
  refine (conj _ (conj _ _)).
  - apply occurs_in_trans with (Dashboard.progressSummary b); [|exact Hpr].
    now apply progress_line_in_summary with entries.
  - intros H1 H2. subst line. unfold Dashboard.progress_line.
    f_equal.
    assert (Hs : Dashboard.stageName (Dashboard.stage_of key) = js "Practicing").
    { unfold Dashboard.stageName.
      destruct (Dashboard.stage_of key) as [s|]; [|reflexivity].
      destruct (str_eqb s (js "1")) eqn:E1.
      { apply str_eqb_spec in E1. subst s. now elim H1. }
      destruct (str_eqb s (js "2")) eqn:E2.
      { apply str_eqb_spec in E2. subst s. now elim H2. }
      reflexivity. }
    rewrite Hs. reflexivity.
  - intros Hnone. subst line. unfold Dashboard.progress_line.
    assert (Hu : Dashboard.virtue_name virtues (Dashboard.virtueId_of key)
                 = js "Unknown").
    { unfold Dashboard.virtue_name.
      destruct (find (Dashboard.id_matches (Dashboard.virtueId_of key)) virtues)
        as [v|] eqn:Hf; [|reflexivity].
      apply find_some in Hf as [Hv Hmatch].
      rewrite (Hnone v Hv) in Hmatch. discriminate. }
    rewrite Hu. reflexivity.
Qed.

End ContextBuilder.

(* ===================================================================== *)
(** ** The word limit                                                      *)
(* ===================================================================== *)

Unset Implicit Arguments.

Lemma split_ws_cons (c : N) (s : jsstring) :
  split_ws (c :: s)
  = if is_space c then
      match s with
      | c' :: _ => if is_space c' then split_ws s else [] :: split_ws s
      | [] => [] :: split_ws s
      end
    else
      match split_ws s with
      | p :: ps => (c :: p) :: ps
      | [] => [[c]]
      end.
Proof. reflexivity. Qed.

Lemma split_ws_space_head (s : jsstring) :
  forall c, is_space c = true -> exists ps, split_ws (c :: s) = [] :: ps.
Proof.
  induction s as [|c' s IH]; intros c Hc; rewrite split_ws_cons, Hc.
  - eexists; reflexivity.
  - destruct (is_space c') eqn:Hc'; [now apply IH | eexists; reflexivity].
Qed.

Lemma truthy_snoc (l : jsstring) (x : N) : truthy (l ++ [x]) = true.
Proof. now destruct l. Qed.

Lemma words_from_split (s : jsstring) :
  forall cur,
    words_from cur s
    = match split_ws s with
      | p :: ps => filter truthy ((rev cur ++ p) :: ps)
      | [] => []
      end.
Proof.
  induction s as [|c s IH]; intros cur.
  - simpl split_ws. cbv beta iota. rewrite app_nil_r. simpl.
    destruct cur as [|x cur]; [reflexivity|].
    simpl rev. now rewrite truthy_snoc.
  - rewrite split_ws_cons. simpl words_from.
    destruct (is_space c) eqn:Hc.
    + assert (Hgoal : forall ps,
                 words_from [] s = filter truthy ps ->
                 match cur with
                 | [] => words_from [] s
                 | _ :: _ => rev cur :: words_from [] s
                 end = filter truthy ((rev cur ++ []) :: ps)).
      { intros ps Hps. rewrite app_nil_r, Hps.
        destruct cur as [|x cur]; [reflexivity|].
        simpl. now rewrite truthy_snoc. }
      destruct s as [|c' s'].
      * apply Hgoal. reflexivity.
      * destruct (is_space c') eqn:Hc'.
        -- destruct (split_ws_space_head s' c' Hc') as [ps Hps].
           rewrite Hps. apply Hgoal. now rewrite (IH []), Hps.
        -- apply Hgoal. rewrite (IH []).
           destruct (split_ws (c' :: s')); reflexivity.
    + rewrite (IH (c :: cur)).
      pose proof (split_ws_nonempty s) as Hne.
      destruct (split_ws s) as [|p ps]; [contradiction|].
      simpl rev. now rewrite <- app_assoc.
Qed.

Lemma split_ws_pieces (s : jsstring) :
  ends_with_word s = true ->
  Forall (fun p => truthy p = true) (tl (split_ws s))
  /\ (starts_with_word s = true -> truthy (hd [] (split_ws s)) = true).
Proof.
  unfold ends_with_word, starts_with_word.
  induction s as [|c s IH]; intros Hend.
  - discriminate Hend.
  - rewrite split_ws_cons.
    destruct s as [|c' s'].
    + change (last [c] 32%N) with c in Hend.
      destruct (is_space c); [now simpl in Hend|]. simpl.
      split; [constructor | reflexivity].
    + change (last (c :: c' :: s') 32%N) with (last (c' :: s') 32%N) in Hend.
      destruct (IH Hend) as [Htl Hhd].
      pose proof (split_ws_nonempty (c' :: s')) as Hne.
      destruct (split_ws (c' :: s')) as [|p ps]; [contradiction|].
      simpl in Htl, Hhd.
      change (hd 32%N (c :: c' :: s')) with c.
      destruct (is_space c) eqn:Hc.
      * destruct (is_space c') eqn:Hc'.
        -- simpl. split; [exact Htl | discriminate].
        -- simpl. split; [constructor; [now apply Hhd | exact Htl] | discriminate].
      * simpl. split; [exact Htl | reflexivity].
Qed.

Lemma filter_all {A : Type} (f : A -> bool) (l : list A) :
  Forall (fun x => f x = true) l -> filter f l = l.
Proof.
  induction 1 as [|x l Hx _ IH]; simpl; [reflexivity|]. now rewrite Hx, IH.
Qed.

Lemma words_of_trimmed (s : jsstring) :
  starts_with_word s = true -> ends_with_word s = true -> split_ws s = words s.
Proof.
  intros Hs He. unfold words. rewrite words_from_split.
  destruct (split_ws_pieces s He) as [Htl Hhd]. specialize (Hhd Hs).
  pose proof (split_ws_nonempty s) as Hne.
  destruct (split_ws s) as [|p ps]; [contradiction|].
  simpl in *. rewrite Hhd. now rewrite (filter_all truthy ps Htl).
Qed.


Lemma split_ws_spacefree (s : jsstring) : Forall spacefree (split_ws s).
Proof.
  induction s as [|c s IH].
  - repeat constructor.
  - rewrite split_ws_cons. destruct (is_space c) eqn:Hc.
    + destruct s as [|c' s']; [repeat constructor|].
      destruct (is_space c'); [exact IH|].
      constructor; [constructor | exact IH].
    + destruct (split_ws s) as [|p ps]; [repeat constructor; exact Hc|].
      inversion IH as [|? ? Hp Hps]; subst.
      constructor; [constructor; assumption | assumption].
Qed.

Lemma split_ws_first_piece (c : N) (s : jsstring) :
  is_space c = false -> truthy (hd [] (split_ws (c :: s))) = true.
Proof.
  intros Hc. rewrite split_ws_cons, Hc. now destruct (split_ws s).
Qed.

(** Between the first and the last piece no piece is empty. *)
Lemma split_ws_inner_pieces (s : jsstring) :
  Forall (fun p => truthy p = true) (removelast (tl (split_ws s))).
Proof.
  induction s as [|c s IH]; [constructor|].
  rewrite split_ws_cons. destruct (is_space c) eqn:Hc.
  - destruct s as [|c' s']; [constructor|].
    destruct (is_space c') eqn:Hc'; [exact IH|].
    pose proof (split_ws_first_piece c' s' Hc') as Hhd.
    pose proof (split_ws_nonempty (c' :: s')) as Hne.
    destruct (split_ws (c' :: s')) as [|p ps]; [contradiction|].
    simpl in IH, Hhd. change (tl ([] :: p :: ps)) with (p :: ps).
    destruct ps as [|q ps]; [constructor|].
    change (removelast (p :: q :: ps)) with (p :: removelast (q :: ps)).
    constructor; assumption.
  - pose proof (split_ws_nonempty s) as Hne.
    destruct (split_ws s) as [|p ps]; [contradiction|]. exact IH.
Qed.

Lemma Forall_firstn_removelast {A : Type} (P : A -> Prop) (l : list A) :
  forall k, k < length l -> Forall P (removelast l) -> Forall P (firstn k l).
Proof.
  induction l as [|x l IH]; intros k Hk H; [now destruct k|].
  destruct k as [|k]; [constructor|].
  destruct l as [|y l]; [simpl in Hk; lia|].
  change (removelast (x :: y :: l)) with (x :: removelast (y :: l)) in H.
  inversion H; subst. simpl firstn. constructor; [assumption|].
  apply IH; [simpl in *; lia | assumption].
Qed.

Lemma Forall_firstn' {A : Type} (P : A -> Prop) (l : list A) :
  forall k, Forall P l -> Forall P (firstn k l).
Proof.
  induction l as [|x l IH]; intros k H; [now destruct k|].
  destruct k as [|k]; [constructor|].
  inversion H; subst. simpl. constructor; auto.
Qed.

Lemma split_ws_word (x : jsstring) : spacefree x -> split_ws x = [x].
Proof.
  induction 1 as [|c x Hc _ IH]; [reflexivity|].
  now rewrite split_ws_cons, Hc, IH.
Qed.

Lemma split_ws_word_space (x : jsstring) (c : N) (s : jsstring) :
  spacefree x -> is_space c = false ->
  split_ws (x ++ js " " ++ c :: s) = x :: split_ws (c :: s).
Proof.
  intros Hx Hc. induction Hx as [|d x Hd _ IH].
  - change ([] ++ js " " ++ c :: s) with (32%N :: c :: s).
    rewrite (split_ws_cons 32%N). change (is_space 32%N) with true.
    cbv iota. now rewrite Hc.
  - change ((d :: x) ++ js " " ++ c :: s) with (d :: (x ++ js " " ++ c :: s)).
    now rewrite split_ws_cons, Hd, IH.
Qed.

(** Splitting undoes joining words with single spaces. *)
Lemma split_ws_join (l : list jsstring) :
  l <> [] ->
  Forall spacefree l ->
  Forall (fun p => truthy p = true) (tl l) ->
  split_ws (join (js " ") l) = l.
Proof.
  induction l as [|x l IH]; intros Hne Hsf Htl; [contradiction|].
  inversion Hsf as [|? ? Hx Hl]; subst.
  destruct l as [|y l]; [now apply split_ws_word|].
  simpl in Htl. inversion Htl as [|? ? Hy Hrest]; subst.
  rewrite join_cons2.
  assert (Hstart : exists c rest, join (js " ") (y :: l) = c :: rest
                                  /\ is_space c = false).
  { inversion Hl as [|? ? Hysf _]; subst.
    destruct y as [|c y]; [discriminate Hy|].
    inversion Hysf; subst.
    destruct l; simpl; eauto. }
  destruct Hstart as (c & rest & Hj & Hc).
  rewrite <- IH at 2.
  - rewrite Hj. now apply split_ws_word_space.
  - discriminate.
  - assumption.
  - destruct l as [|z l]; [constructor|].
    inversion Hrest; subst. simpl. constructor; assumption.
Qed.

Lemma join_append_last (sep suffix : jsstring) (l : list jsstring) :
  l <> [] -> join sep l ++ suffix = join sep (append_last suffix l).
Proof.
  induction l as [|x l IH]; intros Hne; [contradiction|].
  destruct l as [|y l]; [reflexivity|].
  change (append_last suffix (x :: y :: l)) with (x :: append_last suffix (y :: l)).
  assert (Hc : exists z m, append_last suffix (y :: l) = z :: m).
  { destruct l; simpl; eauto. }
  destruct Hc as (z & m & Hc).
  rewrite join_cons2, <- !app_assoc, IH by discriminate.
  rewrite Hc. reflexivity.
Qed.

Lemma append_last_length (suffix : jsstring) (l : list jsstring) :
  length (append_last suffix l) = length l.
Proof.
  induction l as [|x l IH]; [reflexivity|].
  destruct l as [|y l]; [reflexivity|].
  change (append_last suffix (x :: y :: l)) with (x :: append_last suffix (y :: l)).
  simpl length in *. now rewrite IH.
Qed.

Lemma append_last_Forall (P : jsstring -> Prop) (suffix : jsstring) (l : list jsstring) :
  (forall x, P x -> P (x ++ suffix)) ->
  Forall P l -> Forall P (append_last suffix l).
Proof.
  intros Hsuf. induction 1 as [|x l Hx Hl IH]; [constructor|].
  destruct l as [|y l]; [constructor; auto|].
  change (append_last suffix (x :: y :: l)) with (x :: append_last suffix (y :: l)).
  constructor; assumption.
Qed.

Lemma append_last_tl (suffix : jsstring) (x : jsstring) (l : list jsstring) :
  l <> [] -> tl (append_last suffix (x :: l)) = append_last suffix l.
Proof. destruct l; [contradiction|reflexivity]. Qed.

(** The pieces of a text that was cut are the pieces kept, the last one
    with the ellipsis. *)
Lemma split_ws_truncated (maxWords : nat) (t : jsstring) :
  0 < maxWords < length (split_ws t) ->
  split_ws (join (js " ") (firstn maxWords (split_ws t)) ++ js "...")
  = append_last (js "...") (firstn maxWords (split_ws t)).
Proof.
  intros [Hpos Hlt].
  pose proof (split_ws_spacefree t) as Hsf.
  pose proof (split_ws_inner_pieces t) as Hin.
  destruct (split_ws t) as [|p ps]; [simpl in Hlt; lia|].
  destruct maxWords as [|k]; [lia|].
  simpl firstn. simpl tl in Hin. simpl length in Hlt.
  assert (Hk : Forall (fun p => truthy p = true) (firstn k ps)).
  { apply Forall_firstn_removelast; [lia | exact Hin]. }
  assert (Hsfk : Forall spacefree (p :: firstn k ps)).
  { inversion Hsf; subst. constructor; [assumption|].
    now apply Forall_firstn'. }
  assert (Hdots : forall x, spacefree x -> spacefree (x ++ js "...")).
  { intros x Hx. apply Forall_app. split; [exact Hx|]. repeat constructor. }
  rewrite join_append_last by discriminate.
  apply split_ws_join.
  - destruct (firstn k ps); discriminate.
  - now apply append_last_Forall.
  - destruct (firstn k ps) as [|q qs] eqn:Hq; [constructor|].
    rewrite append_last_tl by discriminate.
    apply append_last_Forall; [|exact Hk].
    intros x Hx. destruct x; [discriminate Hx | reflexivity].
Qed.

(** The first piece is empty exactly when the text starts with whitespace. *)
Lemma split_ws_hd_truthy (c : N) (s : jsstring) :
  truthy (hd [] (split_ws (c :: s))) = starts_with_word (c :: s).
Proof.
  unfold starts_with_word. change (hd 32%N (c :: s)) with c.
  destruct (is_space c) eqn:Hc.
  - destruct (split_ws_space_head s c Hc) as [ps ->]. reflexivity.
  - now rewrite (split_ws_first_piece c s Hc).
Qed.

(** The number of pieces of a text that is not empty: its words, and one
    more for each end that is whitespace. *)
Lemma split_ws_length (s : jsstring) :
  s <> [] ->
  length (split_ws s)
  = length (filter truthy (split_ws s))
    + (if starts_with_word s then 0 else 1)
    + (if ends_with_word s then 0 else 1).
Proof.
  induction s as [|c s IH]; intros Hne; [contradiction|].
  destruct s as [|c' s'].
  - rewrite split_ws_cons. unfold starts_with_word, ends_with_word. simpl hd. simpl last.
    destruct (is_space c); reflexivity.
  - specialize (IH ltac:(discriminate)).
    change (ends_with_word (c :: c' :: s')) with (ends_with_word (c' :: s')).
    set (e := if ends_with_word (c' :: s') then 0 else 1) in *. clearbody e.
    rewrite split_ws_cons.
    unfold starts_with_word at 1. change (hd 32%N (c :: c' :: s')) with c.
    pose proof (split_ws_hd_truthy c' s') as Hhd.
    unfold starts_with_word in IH, Hhd. change (hd 32%N (c' :: s')) with c' in IH, Hhd.
    destruct (is_space c) eqn:Hc; simpl negb.
    + destruct (is_space c') eqn:Hc'; simpl negb in *.
      * exact IH.
      * change (length ([] :: split_ws (c' :: s')))
          with (S (length (split_ws (c' :: s')))).
        change (filter truthy ([] :: split_ws (c' :: s')))
          with (filter truthy (split_ws (c' :: s'))).
        rewrite IH. lia.
    + destruct (split_ws (c' :: s')) as [|p ps] eqn:Hs.
      { now elim (split_ws_nonempty (c' :: s')). }
      change (hd [] (p :: ps)) with p in Hhd.
      change (length ((c :: p) :: ps)) with (S (length ps)).
      change (length (p :: ps)) with (S (length ps)) in IH.
      change (filter truthy ((c :: p) :: ps)) with ((c :: p) :: filter truthy ps).
      change (filter truthy (p :: ps))
        with (if truthy p then p :: filter truthy ps else filter truthy ps) in IH.
      rewrite Hhd in IH.
      destruct (is_space c'); cbn in IH |- *; lia.
Qed.

(** The words of a text are the non-empty pieces of [split(/\s+/)], and
    the pieces that are empty stand for whitespace at the ends of the text:
    the split of the empty text is one empty piece, that of any other text
    has one piece for each word, one more when the text starts with
    whitespace and one more when it ends with whitespace; no piece between
    the first and the last is empty. *)
Theorem words_are_the_nonempty_pieces (s : jsstring) :
  words s = filter truthy (split_ws s)
  /\ length (split_ws s)
     = match s with
       | [] => 1
       | _ :: _ =>
           word_count s + (if starts_with_word s then 0 else 1)
                        + (if ends_with_word s then 0 else 1)
       end
  /\ Forall (fun p => p <> []) (removelast (tl (split_ws s))).
Proof.
  assert (Hwords : words s = filter truthy (split_ws s)).
  { unfold words. rewrite words_from_split.
    pose proof (split_ws_nonempty s) as Hne.
    now destruct (split_ws s) as [|p ps]; [contradiction|]. }
  refine (conj Hwords (conj _ _)).
  - destruct s as [|c s]; [reflexivity|].
    unfold word_count. rewrite Hwords. apply split_ws_length. discriminate.
  - eapply Forall_impl; [|apply split_ws_inner_pieces].
    intros p Hp E. subst p. discriminate Hp.
Qed.

(** Cutting a text twice is cutting it once: the ellipsis is not appended
    a second time. *)
Theorem enforce_word_limit_idempotent (maxWords : nat) (t : jsstring) :
  enforce_word_limit maxWords (enforce_word_limit maxWords t)
  = enforce_word_limit maxWords t.
Proof.
  destruct (maxWords <? length (split_ws t)) eqn:Hlt.
  - assert (Hcut : enforce_word_limit maxWords t
                   = join (js " ") (firstn maxWords (split_ws t)) ++ js "...").
    { unfold enforce_word_limit. now rewrite Hlt. }
    rewrite Hcut. apply Nat.ltb_lt in Hlt.
    destruct maxWords as [|k]; [reflexivity|].
    unfold enforce_word_limit.
    rewrite split_ws_truncated by lia.
    rewrite append_last_length, length_firstn, Nat.min_l by lia.
    now rewrite Nat.ltb_irrefl.
  - assert (Hsame : enforce_word_limit maxWords t = t).
    { unfold enforce_word_limit. now rewrite Hlt. }
    rewrite Hsame. exact Hsame.
Qed.

(** On a text that neither starts nor ends with whitespace the pieces are
    the words: up to [maxWords] words the text is left as it is, beyond that
    it becomes its first [maxWords] words, joined by single spaces, and the
    ellipsis, which makes [maxWords] words. *)
Theorem word_limit_on_trimmed_text (maxWords : nat) (t : jsstring) :
  starts_with_word t = true ->
  ends_with_word t = true ->
  (word_count t <= maxWords -> enforce_word_limit maxWords t = t)
  /\ (0 < maxWords < word_count t ->
      enforce_word_limit maxWords t
      = join (js " ") (firstn maxWords (words t)) ++ js "..."
      /\ word_count (enforce_word_limit maxWords t) = maxWords).
Proof.
  intros Hs He. pose proof (words_of_trimmed t Hs He) as Hw.
  unfold word_count. split.
  - intros Hle. unfold enforce_word_limit. rewrite Hw.
    apply Nat.ltb_ge in Hle. now rewrite Hle.
  - intros [Hpos Hlt].
    assert (Hcut : enforce_word_limit maxWords t
                   = join (js " ") (firstn maxWords (words t)) ++ js "...").
    { unfold enforce_word_limit. rewrite Hw.
      apply Nat.ltb_lt in Hlt. now rewrite Hlt. }
    split; [exact Hcut|].
    rewrite Hcut, <- Hw. unfold words. rewrite words_from_split.
    rewrite split_ws_truncated by (rewrite Hw; lia).
    destruct (split_ws_pieces t He) as [Htl Hhd]. specialize (Hhd Hs).
    rewrite Hw in *.
    destruct (words t) as [|p ps]; [simpl in Hlt; lia|].
    destruct maxWords as [|k]; [lia|].
    simpl in Htl, Hhd. simpl firstn.
    assert (Hall : Forall (fun p => truthy p = true)
                          (append_last (js "...") (p :: firstn k ps))).
    { apply append_last_Forall.
      - intros x Hx. destruct x; [discriminate Hx | reflexivity].
      - constructor; [exact Hhd | now apply Forall_firstn']. }
    assert (Hlen : length (append_last (js "...") (p :: firstn k ps)) = S k).
    { rewrite append_last_length. simpl. rewrite length_firstn.
      simpl in Hlt. lia. }
    destruct (append_last (js "...") (p :: firstn k ps)) as [|q qs]; [discriminate Hlen|].
    simpl rev. simpl app.
    rewrite filter_all by exact Hall. exact Hlen.
Qed.

(* ===================================================================== *)
(** ** The answers of the handlers, case by case                           *)
(* ===================================================================== *)

Section Answers.
Context {JN : JsNumber}.

Lemma model_field_of_candidate (k : nat) (m : jsstring) :
  nth_error modelNames k = Some m ->
  or_else (Some m) (js "fallback") = nth k modelNames [].
Proof.
  intros Hk. rewrite (nth_error_nth modelNames k [] Hk).
  do 5 (destruct k as [|k]; [injection Hk as <-; reflexivity|]).
  now destruct k.
Qed.

(** A text that the cut leaves empty was empty. *)
Lemma enforce_word_limit_empty (maxWords : nat) (t : jsstring) :
  enforce_word_limit maxWords t = [] -> t = [].
Proof.
  unfold enforce_word_limit.
  destruct (maxWords <? length (split_ws t)); [|auto].
  intros H. apply app_eq_nil in H as [_ H]. discriminate H.
Qed.

(** The answer of the dashboard handler to a request that reaches the
    loop, from the outcomes of the candidates: with no success the fallback
    message under "fallback"; after a success the text under the name of the
    candidate, unless the text is empty, when it is the fallback message
    under that name. *)
Theorem dashboard_answer_by_cases (development : bool) (generate : oracle)
    (req : http_request Dashboard.Body) (b : Dashboard.Body) :
  method req <> js "OPTIONS" ->
  body req = ObjectBody b ->
  dashboard_well_formed b ->
  fst (Dashboard.getDashboardPrompt development generate req)
  = send 200
      match first_success (dashboard_outcomes generate b) with
      | Some (k, t) =>
          PromptBody (if falsy t then Dashboard.fallback_text b else text_value t)
                     (nth k modelNames []) true
      | None => PromptBody (Dashboard.fallback_text b) (js "fallback") true
      end.
Proof.
  intros Hm Hb Hwf. destruct (well_formed_prompt Hwf) as [prompt Hp].
  unfold dashboard_outcomes. rewrite Hp.
  pose proof (try_models_first_success Dashboard.dashboard generate prompt
                modelNames 0 initial_state) as H.
  destruct (try_models Dashboard.dashboard generate prompt 0 modelNames
              initial_state) as [st evs] eqn:Hrun.
  rewrite (getDashboardPrompt_run development generate req Hm Hb Hp Hrun).
  cbn [fst] in *.
  destruct (first_success
              (outcomes_from Dashboard.dashboard generate prompt 0 modelNames))
    as [[k t]|]; destruct H as (Htext & Hname & _).
  - now rewrite Htext, (model_field_of_candidate k _ Hname).
  - now rewrite Htext, Hname.
Qed.


(** A dashboard request whose [prioritizedVirtues] is neither missing nor
    an array fails while the prompt is prepared: status 500, the message of
    the error only in development, and no candidate called. *)
Theorem dashboard_non_array_is_internal_error (development : bool) (generate : oracle)
    (req : http_request Dashboard.Body) (b : Dashboard.Body) :
  method req <> js "OPTIONS" ->
  body req = ObjectBody b ->
  Dashboard.prioritizedVirtues b = NotArray ->
  fst (Dashboard.getDashboardPrompt development generate req)
  = send 500
      (ErrorBody (js "Internal server error")
         (if development
          then Some (js "prioritizedVirtues?.map is not a function")
          else None))
  /\ invocations (snd (Dashboard.getDashboardPrompt development generate req)) = [].
Proof.
  intros Hm Hb Hbad. unfold Dashboard.getDashboardPrompt.
  rewrite (str_eqb_neq Hm), Hb.
  unfold Dashboard.build_prompt, Dashboard.virtueList. rewrite Hbad.
  now destruct development.
Qed.

(** A preflight request is answered 204 with an empty body by both
    handlers, whatever its body, and nothing else happens. *)
Theorem preflight_is_answered_empty (development : bool) (generate : oracle) :
  (forall req : http_request Dashboard.Body,
      method req = js "OPTIONS" ->
      Dashboard.getDashboardPrompt development generate req = (send 204 EmptyBody, []))
  /\ (forall req : http_request Summary.Body,
         method req = js "OPTIONS" ->
         Summary.getSummaryAnalysis development generate req = (send 204 EmptyBody, [])).
Proof.
  split; intros req Hm.
  - unfold Dashboard.getDashboardPrompt. now rewrite Hm.
  - unfold Summary.getSummaryAnalysis. now rewrite Hm.
Qed.

End Answers.

(* ===================================================================== *)
(** ** The trace of the loop                                               *)
(* ===================================================================== *)

Lemma warnings_app (a b : list event) : warnings (a ++ b) = warnings a ++ warnings b.
Proof.
  induction a as [|ev a IH]; simpl; [reflexivity|].
  destruct ev; simpl; now rewrite IH.
Qed.

(** What the loop leaves in [lastError] and prints with [console.warn]:
    the errors of the attempts that failed, one line each, in order. *)
Lemma try_models_trace (ep : endpoint) (generate : oracle) (prompt : jsstring) :
  forall models i st,
    let run := try_models ep generate prompt i models st in
    let errors := leading_errors (outcomes_from ep generate prompt i models) in
    lastError (fst run) = last (map Some errors) (lastError st)
    /\ warnings (snd run)
       = map (fun me => warning_for ep (fst me) (snd me)) (combine models errors)
    /\ last_diagnostic (snd run) = None.
Proof.
  induction models as [|m rest IH]; intros i st; simpl.
  - auto.
  - destruct (attempt ep (generate i (call_for ep prompt m))) as [e|t] eqn:Ha; simpl.
    + specialize (IH (S i)
        {| generatedText := generatedText st; lastError := Some e;
           successfulModel := successfulModel st |}).
      destruct (try_models ep generate prompt (S i) rest _) as [st' evs] eqn:Hr.
      simpl in IH. destruct IH as (Hlast & Hwarn & Hdiag). simpl.
      refine (conj _ (conj _ _)).
      * rewrite Hlast.
        destruct (leading_errors (outcomes_from ep generate prompt (S i) rest));
          [reflexivity | apply last_cons_default].
      * now rewrite Hwarn.
      * now rewrite Hdiag.
    + auto.
Qed.

(** The outcomes past the first success do not matter to the loop. *)
Lemma try_models_agree (ep : endpoint) (generate generate' : oracle) (prompt : jsstring) :
  forall models i st k t,
    first_success (outcomes_from ep generate prompt i models) = Some (k, t) ->
    (forall j c, j <= i + k -> generate j c = generate' j c) ->
    try_models ep generate' prompt i models st
    = try_models ep generate prompt i models st.
Proof.
  induction models as [|m rest IH]; intros i st k t Hfirst Hagree; simpl in *.
  - discriminate Hfirst.
  - rewrite <- (Hagree i (call_for ep prompt m)) by lia.
    destruct (attempt ep (generate i (call_for ep prompt m))) as [e|t'].
    + destruct (first_success (outcomes_from ep generate prompt (S i) rest))
        as [[k' t'']|] eqn:Hrest; [|discriminate Hfirst].
      injection Hfirst as <- <-.
      rewrite (IH (S i) _ k' t'' Hrest); [reflexivity|].
      intros j c Hj. apply Hagree. lia.
    + reflexivity.
Qed.

Lemma first_success_position (rs : list (js_error + option jsstring)) :
  forall k t, first_success rs = Some (k, t) -> nth_error rs k = Some (inr t).
Proof.
  induction rs as [|[e|t'] rs IH]; intros k t H; simpl in H.
  - discriminate H.
  - destruct (first_success rs) as [[k' t'']|]; [|discriminate H].
    injection H as <- <-. simpl. now apply IH.
  - now injection H as <- <-.
Qed.

Lemma outcomes_from_attempt (ep : endpoint) (generate : oracle) (prompt : jsstring) :
  forall models i k x,
    nth_error (outcomes_from ep generate prompt i models) k = Some x ->
    exists r, attempt ep r = x.
Proof.
  induction models as [|m rest IH]; intros i k x H; simpl in H.
  - now destruct k.
  - destruct k as [|k]; simpl in H.
    + injection H as <-. eauto.
    + now apply (IH (S i) k).
Qed.

Section HandlerTraces.
Context {JN : JsNumber}.

(** The trace of the dashboard handler past its guards. *)
Lemma dashboard_loop_of_request (development : bool) (generate : oracle)
    (req : http_request Dashboard.Body) (b : Dashboard.Body) (prompt : jsstring) :
  method req <> js "OPTIONS" ->
  body req = ObjectBody b ->
  Dashboard.build_prompt b = inr prompt ->
  exists st evs,
    try_models Dashboard.dashboard generate prompt 0 modelNames initial_state = (st, evs)
    /\ Dashboard.getDashboardPrompt development generate req
       = (send 200
            (PromptBody
               (if falsy (generatedText st) then Dashboard.fallback_text b
                else text_value (generatedText st))
               (or_else (Some (successfulModel st)) (js "fallback")) true),
          evs ++ (if falsy (generatedText st)
                  then [ConsoleError (js "All models failed:") (lastError st)]
                  else [])).
Proof.
  intros Hm Hb Hp.
  destruct (try_models Dashboard.dashboard generate prompt 0 modelNames initial_state)
    as [st evs] eqn:Hrun.
  exists st, evs. split; [reflexivity|].
  exact (getDashboardPrompt_run development generate req Hm Hb Hp Hrun).
Qed.

Lemma summary_loop_of_request (development : bool) (generate : oracle)
    (req : http_request Summary.Body) (l : list Summary.Analysis)
    (virtues : list PrioritizedVirtue) :
  method req <> js "OPTIONS" ->
  Summary.validate (body req) = Some (l, virtues) ->
  exists st evs,
    try_models Summary.summary generate (Summary.build_prompt l virtues) 0 modelNames
               initial_state = (st, evs)
    /\ Summary.getSummaryAnalysis development generate req
       = (send 200
            (SummaryBody
               (if falsy (generatedText st) then Summary.fallback_text virtues
                else text_value (generatedText st))
               (or_else (Some (successfulModel st)) (js "fallback")) true),
          evs ++ (if falsy (generatedText st)
                  then [ConsoleError (js "All summary models failed:") (lastError st)]
                  else [])).
Proof.
  intros Hm Hv.
  destruct (try_models Summary.summary generate (Summary.build_prompt l virtues) 0
              modelNames initial_state) as [st evs] eqn:Hrun.
  exists st, evs. split; [reflexivity|].
  exact (getSummaryAnalysis_run development generate req Hm Hv Hrun).
Qed.





(** Whatever the request and the outcomes, the answer of the dashboard
    handler carries the CORS headers and a document that fits its status:
    an empty body with 204, an error with 400 (without details) or 500, and
    with 200 a prompt with [success: true] and a model name that is not
    empty. *)
Theorem dashboard_answers_are_well_shaped (development : bool) (generate : oracle)
    (req : http_request Dashboard.Body) :
  dashboard_answer_shape (fst (Dashboard.getDashboardPrompt development generate req)).
Proof.
  unfold dashboard_answer_shape.
  destruct (str_eqb (method req) (js "OPTIONS")) eqn:Hm.
  { unfold Dashboard.getDashboardPrompt. rewrite Hm. simpl. auto. }
  assert (Hm' : method req <> js "OPTIONS").
  { intros E. rewrite E, str_eqb_refl in Hm. discriminate Hm. }
  destruct (body req) as [| |b] eqn:Hb;
    try solve [unfold Dashboard.getDashboardPrompt; rewrite Hm, Hb; simpl; auto].
  destruct (Dashboard.build_prompt b) as [e|prompt] eqn:Hp.
  { unfold Dashboard.getDashboardPrompt. rewrite Hm, Hb, Hp. simpl. auto. }
  destruct (dashboard_loop_of_request development generate req b prompt Hm' Hb Hp)
    as (st & evs & _ & ->).
  simpl. repeat split.
  destruct (successfulModel st); simpl; discriminate.
Qed.

(** The same for the summary handler. *)
Theorem summary_answers_are_well_shaped (development : bool) (generate : oracle)
    (req : http_request Summary.Body) :
  summary_answer_shape (fst (Summary.getSummaryAnalysis development generate req)).
Proof.
  unfold summary_answer_shape.
  destruct (str_eqb (method req) (js "OPTIONS")) eqn:Hm.
  { unfold Summary.getSummaryAnalysis. rewrite Hm. simpl. auto. }
  assert (Hm' : method req <> js "OPTIONS").
  { intros E. rewrite E, str_eqb_refl in Hm. discriminate Hm. }
  destruct (Summary.validate (body req)) as [[l virtues]|] eqn:Hv.
  2: { unfold Summary.getSummaryAnalysis. rewrite Hm, Hv. simpl. auto. }
  destruct (summary_loop_of_request development generate req l virtues Hm' Hv)
    as (st & evs & _ & ->).
  simpl. repeat split.
  destruct (successfulModel st); simpl; discriminate.
Qed.

(** A dashboard request whose body is missing or is not an object is
    answered 400 "Invalid request body", and nothing is logged or called. *)
Theorem dashboard_missing_body_is_rejected (development : bool) (generate : oracle)
    (req : http_request Dashboard.Body) :
  method req <> js "OPTIONS" ->
  (forall b, body req <> ObjectBody b) ->
  Dashboard.getDashboardPrompt development generate req
  = (send 400 (ErrorBody (js "Invalid request body") None), []).
Proof.
  intros Hm Hb. unfold Dashboard.getDashboardPrompt. rewrite (str_eqb_neq Hm).
  destruct (body req) as [| |b]; try reflexivity. now elim (Hb b).
Qed.

(** Each attempt that fails is reported by one [console.warn] line with the
    name of the candidate and the message of the error, in the order of the
    attempts, and nothing else is warned about. *)
Theorem failed_attempts_are_warned_about :
  (forall development generate (req : http_request Dashboard.Body) b,
      method req <> js "OPTIONS" ->
      body req = ObjectBody b ->
      dashboard_well_formed b ->
      warnings (snd (Dashboard.getDashboardPrompt development generate req))
      = map (fun me => warning_for Dashboard.dashboard (fst me) (snd me))
            (combine modelNames (leading_errors (dashboard_outcomes generate b))))
  /\
  (forall development generate (req : http_request Summary.Body) l virtues,
      method req <> js "OPTIONS" ->
      Summary.validate (body req) = Some (l, virtues) ->
      warnings (snd (Summary.getSummaryAnalysis development generate req))
      = map (fun me => warning_for Summary.summary (fst me) (snd me))
            (combine modelNames (leading_errors (summary_outcomes generate l virtues)))).
Proof.
  split.
  - intros development generate req b Hm Hb Hwf.
    destruct (well_formed_prompt Hwf) as [prompt Hp].
    unfold dashboard_outcomes. rewrite Hp.
    destruct (dashboard_loop_of_request development generate req b prompt Hm Hb Hp)
      as (st & evs & Hrun & ->).
    pose proof (try_models_trace Dashboard.dashboard generate prompt modelNames 0
                  initial_state) as (_ & Hwarn & _).
    rewrite Hrun in Hwarn. simpl in Hwarn. simpl snd.
    rewrite warnings_app, Hwarn.
    destruct (falsy (generatedText st)); simpl; now rewrite app_nil_r.
  - intros development generate req l virtues Hm Hv.
    unfold summary_outcomes.
    destruct (summary_loop_of_request development generate req l virtues Hm Hv)
      as (st & evs & Hrun & ->).
    pose proof (try_models_trace Summary.summary generate
                  (Summary.build_prompt l virtues) modelNames 0 initial_state)
      as (_ & Hwarn & _).
    rewrite Hrun in Hwarn. simpl in Hwarn. simpl snd.
    rewrite warnings_app, Hwarn.
    destruct (falsy (generatedText st)); simpl; now rewrite app_nil_r.
Qed.

(** The "All models failed:" diagnostic is printed exactly when no
    candidate gave a text that is not empty, that is, when the answer is the
    fallback message.  Its argument is the error of the latest failed
    attempt, and [null] when the first candidate answered with an empty
    text. *)
Theorem diagnostic_goes_with_the_fallback (development : bool) (generate : oracle)
    (req : http_request Dashboard.Body) (b : Dashboard.Body) :
  method req <> js "OPTIONS" ->
  body req = ObjectBody b ->
  dashboard_well_formed b ->
  let rs := dashboard_outcomes generate b in
  let run := Dashboard.getDashboardPrompt development generate req in
  let diagnostic :=
    Some (js "All models failed:", last (map Some (leading_errors rs)) None) in
  last_diagnostic (snd run)
  = match first_success rs with
    | Some (_, t) => if falsy t then diagnostic else None
    | None => diagnostic
    end.
Proof.
  intros Hm Hb Hwf rs run diagnostic. subst rs run diagnostic.
  destruct (well_formed_prompt Hwf) as [prompt Hp].
  unfold dashboard_outcomes. rewrite Hp.
  destruct (dashboard_loop_of_request development generate req b prompt Hm Hb Hp)
    as (st & evs & Hrun & ->).
  pose proof (try_models_trace Dashboard.dashboard generate prompt modelNames 0
                initial_state) as (Hlast & _ & Hdiag).
  pose proof (try_models_first_success Dashboard.dashboard generate prompt
                modelNames 0 initial_state) as Hfirst.
  rewrite Hrun in Hlast, Hdiag, Hfirst. cbn [fst snd] in *.
  rewrite last_diagnostic_app.
  change (lastError initial_state) with (@None js_error) in Hlast.
  assert (Htext : generatedText st
                  = match first_success
                            (outcomes_from Dashboard.dashboard generate prompt 0
                               modelNames) with
                    | Some (_, t) => t
                    | None => Some []
                    end).
  { destruct (first_success _) as [[k t]|]; now destruct Hfirst. }
  destruct (first_success _) as [[k t]|]; rewrite Htext.
  - destruct (falsy t); simpl; [now rewrite Hlast | exact Hdiag].
  - simpl. now rewrite Hlast.
Qed.

(** What the candidates past the first success would have answered has no
    effect: two services that answer alike up to that call lead to the same
    answer and the same trace. *)
Theorem later_outcomes_do_not_matter (development : bool) (generate generate' : oracle)
    (req : http_request Dashboard.Body) (b : Dashboard.Body) (k : nat)
    (t : option jsstring) :
  body req = ObjectBody b ->
  first_success (dashboard_outcomes generate b) = Some (k, t) ->
  agree_up_to k generate generate' ->
  Dashboard.getDashboardPrompt development generate' req
  = Dashboard.getDashboardPrompt development generate req.
Proof.
  intros Hb Hfirst Hagree. unfold Dashboard.getDashboardPrompt.
  destruct (str_eqb (method req) (js "OPTIONS")); [reflexivity|].
  rewrite Hb. unfold dashboard_outcomes in Hfirst.
  destruct (Dashboard.build_prompt b) as [e|prompt]; [reflexivity|].
  now rewrite (try_models_agree Dashboard.dashboard generate generate' prompt
                 modelNames 0 initial_state k t Hfirst Hagree).
Qed.

End HandlerTraces.

(* ===================================================================== *)
(** ** Bounds on the text of an answer                                     *)
(* ===================================================================== *)

Lemma filter_length_le {A : Type} (f : A -> bool) (l : list A) :
  length (filter f l) <= length l.
Proof.
  induction l as [|x l IH]; simpl; [lia|]. destruct (f x); simpl; lia.
Qed.

Lemma word_count_le_pieces (s : jsstring) : word_count s <= length (split_ws s).
Proof.
  unfold word_count, words. rewrite words_from_split.
  pose proof (split_ws_nonempty s) as Hne.
  destruct (split_ws s) as [|p ps]; [contradiction|].
  simpl rev. simpl app. apply filter_length_le.
Qed.

(** The limit holds for every text: the result never has more than
    [maxWords] words. *)
Theorem word_limit_is_enforced (maxWords : nat) (t : jsstring) :
  0 < maxWords -> word_count (enforce_word_limit maxWords t) <= maxWords.
Proof.
  intros Hpos. unfold enforce_word_limit.
  destruct (maxWords <? length (split_ws t)) eqn:Hlt.
  - apply Nat.ltb_lt in Hlt.
    eapply Nat.le_trans; [apply word_count_le_pieces|].
    rewrite split_ws_truncated by lia.
    rewrite append_last_length, length_firstn. lia.
  - apply Nat.ltb_ge in Hlt.
    eapply Nat.le_trans; [apply word_count_le_pieces | exact Hlt].
Qed.

Lemma first_success_attempt (ep : endpoint) (generate : oracle) (prompt : jsstring)
    (k : nat) (t : option jsstring) :
  first_success (outcomes_from ep generate prompt 0 modelNames) = Some (k, t) ->
  exists r, attempt ep r = inr t.
Proof.
  intros H. apply first_success_position in H.
  now apply outcomes_from_attempt in H.
Qed.

(** What the dashboard loop accepts is a text that went through the cut. *)
Lemma dashboard_attempt_is_cut (r : gen_result) (t : option jsstring) :
  attempt Dashboard.dashboard r = inr t ->
  exists raw, t = Some (enforce_word_limit 150 raw).
Proof.
  unfold attempt. destruct r as [e|response]; [discriminate|].
  destruct (read_text Dashboard.dashboard response) as [e|[raw|]]; simpl;
    try discriminate.
  intros H. injection H as <-. eauto.
Qed.

Section AnswerBounds.
Context {JN : JsNumber}.

(** The text of a 200 answer of the dashboard handler is the fallback
    message or a text of at most 150 words, and its model field is
    "fallback" or one of the five candidates. *)
Theorem dashboard_answer_is_bounded (development : bool) (generate : oracle)
    (req : http_request Dashboard.Body) (b : Dashboard.Body) :
  method req <> js "OPTIONS" ->
  body req = ObjectBody b ->
  dashboard_well_formed b ->
  exists promptText modelUsed,
    fst (Dashboard.getDashboardPrompt development generate req)
    = send 200 (PromptBody promptText modelUsed true)
    /\ (promptText = Dashboard.fallback_text b \/ word_count promptText <= 150)
    /\ (modelUsed = js "fallback" \/ In modelUsed modelNames).
Proof.
  intros Hm Hb Hwf. destruct (well_formed_prompt Hwf) as [prompt Hp].
  destruct (dashboard_loop_of_request development generate req b prompt Hm Hb Hp)
    as (st & evs & Hrun & ->).
  pose proof (try_models_first_success Dashboard.dashboard generate prompt
                modelNames 0 initial_state) as Hfirst.
  rewrite Hrun in Hfirst. cbn [fst snd] in *.
  eexists _, _. split; [reflexivity|].
  destruct (first_success (outcomes_from Dashboard.dashboard generate prompt 0
                             modelNames)) as [[k t]|] eqn:Hk;
    destruct Hfirst as (Htext & Hname & _).
  - split.
    + destruct (falsy (generatedText st)); [now left|right].
      destruct (first_success_attempt _ _ _ _ _ Hk) as [r Hr].
      destruct (dashboard_attempt_is_cut r t Hr) as [raw ->].
      rewrite Htext. simpl. apply word_limit_is_enforced. lia.
    + right. apply nth_error_In in Hname.
      destruct (successfulModel st) as [|c m] eqn:Hs; [|exact Hname].
      exfalso. vm_compute in Hname. intuition discriminate.
  - rewrite Htext, Hname. simpl. split; now left.
Qed.

End AnswerBounds.

(* ===================================================================== *)
(** ** Keys of the progress map                                            *)
(* ===================================================================== *)

(** Joining the pieces of a split with the separator gives the text back,
    and no piece holds the separator. *)
Lemma split_on_pieces (sep : N) (s : jsstring) :
  Forall (fun p => ~ In sep p) (split_on sep s).
Proof.
  induction s as [|c s IH]; simpl.
  - repeat constructor; auto.
  - pose proof (split_on_nonempty sep s) as Hne.
    destruct (N.eqb_spec c sep) as [->|Hc].
    + constructor; [auto | exact IH].
    + destruct (split_on sep s) as [|p ps]; [contradiction|].
      inversion IH as [|? ? Hp Hps]; subst.
      constructor; [|exact Hps]. intros [H|H]; [congruence | contradiction].
Qed.

Theorem split_on_join (sep : N) (s : jsstring) :
  join [sep] (split_on sep s) = s
  /\ Forall (fun p => ~ In sep p) (split_on sep s).
Proof.
  split; [|apply split_on_pieces].
  induction s as [|c s IH]; simpl; [reflexivity|].
  pose proof (split_on_nonempty sep s) as Hne.
  destruct (split_on sep s) as [|p ps]; [contradiction|].
  destruct (N.eqb_spec c sep) as [->|Hc].
  - rewrite join_cons2, IH. reflexivity.
  - destruct ps as [|q ps].
    + simpl in *. now rewrite IH.
    + rewrite join_cons2 in *. rewrite <- IH. reflexivity.
Qed.

Section Keys.
Context {JN : JsNumber}.

Lemma virtueId_of_has_no_hyphen (key : jsstring) : ~ In hyphen (Dashboard.virtueId_of key).
Proof.
  unfold Dashboard.virtueId_of.
  pose proof (split_on_pieces hyphen key) as H.
  destruct (split_on hyphen key) as [|p ps]; [auto|].
  now inversion H.
Qed.

(** A virtue whose id is a string with a hyphen in it is matched by no
    key: when every prioritized virtue has such an id, every progress line
    names the virtue "Unknown". *)
Theorem hyphenated_ids_are_never_matched (virtues : list PrioritizedVirtue)
    (key status : jsstring) :
  (forall v, In v virtues ->
             exists s, virtueId v = Some (IdString s) /\ In hyphen s) ->
  Dashboard.progress_line virtues (key, status)
  = js "Unknown - " ++ Dashboard.stageName (Dashboard.stage_of key)
      ++ js ": " ++ status.
Proof.
  intros Hids. unfold Dashboard.progress_line.
  assert (Hu : Dashboard.virtue_name virtues (Dashboard.virtueId_of key) = js "Unknown").
  { unfold Dashboard.virtue_name.
    destruct (find (Dashboard.id_matches (Dashboard.virtueId_of key)) virtues)
      as [v|] eqn:Hf; [|reflexivity].
    apply find_some in Hf as [Hv Hmatch].
    destruct (Hids v Hv) as (s & Hs & Hhyphen).
    unfold Dashboard.id_matches in Hmatch. rewrite Hs in Hmatch.
    apply str_eqb_spec in Hmatch. subst s.
    now elim (virtueId_of_has_no_hyphen key). }
  rewrite Hu. reflexivity.
Qed.

End Keys.

(* ===================================================================== *)
(** ** The two prompts and the two fallback messages                       *)
(* ===================================================================== *)

Section Prompts.
Context {JN : JsNumber}.

(** The summary prompt holds the line of every prioritized virtue, with
    its rank and score, and the line of every analysis; a property that is
    [null] is printed as "null" and counts as 0 in the score, one that is
    missing is printed as "undefined" and gives the score [NaN]. *)
Theorem summary_prompt_embeds_its_data (l : list Summary.Analysis)
    (virtues : list PrioritizedVirtue) :
  (forall i v,
      nth_error virtues i = Some v ->
      occurs_in
        (decimal (i + 1) ++ js ". "
           ++ match virtue v with
              | Val name => name
              | Null => js "null"
              | Missing => js "undefined"
              end
           ++ js " (Score: "
           ++ toFixed1 (num_minus num_ten
                          match defectIntensity v with
                          | Val d => d
                          | Null => num_zero
                          | Missing => num_nan
                          end)
           ++ js ")")
        (Summary.build_prompt l virtues))
  /\ (forall a,
         In a l ->
         occurs_in
           (js "- "
              ++ match Summary.a_virtue a with
                 | Val name => name
                 | Null => js "null"
                 | Missing => js "undefined"
                 end
              ++ js ": "
              ++ match Summary.analysis a with
                 | Val written => written
                 | Null => js "null"
                 | Missing => js "undefined"
                 end)
           (Summary.build_prompt l virtues)).
Proof.
  unfold Summary.build_prompt. split.
  - intros i v Hi.
    apply occurs_in_trans with (js "          " ++ Summary.priorityList virtues).
    + apply occurs_in_app_r. unfold Summary.priorityList.
      apply occurs_in_join with i. unfold mapi.
      change (nth_error (mapi_from virtue_line 0 virtues) i
              = Some (virtue_line (0 + i) v)).
      now apply nth_error_mapi_from.
    + now apply occurs_in_join with 6.
  - intros a Ha.
    apply occurs_in_trans with (js "          " ++ Summary.combinedAnalyses l).
    + apply occurs_in_app_r. unfold Summary.combinedAnalyses.
      apply occurs_in_join_In.
      now apply (in_map (fun a => js "- " ++ interpolate (Summary.a_virtue a)
                                     ++ js ": " ++ interpolate (Summary.analysis a))).
    + now apply occurs_in_join with 9.
Qed.

(** The instructions of a prompt do not depend on the request: the
    dashboard prompt is its fixed preamble, the data of the request, and its
    fixed rules, which hold the 150 word limit; the summary prompt ends with
    its fixed list of tasks. *)
Theorem prompts_keep_their_instructions :
  (forall (b : Dashboard.Body) prompt,
      Dashboard.build_prompt b = inr prompt ->
      exists data, prompt = dashboard_preamble ++ nl ++ data ++ nl ++ dashboard_rules)
  /\ (forall (l : list Summary.Analysis) (virtues : list PrioritizedVirtue),
         exists data, Summary.build_prompt l virtues = data ++ nl ++ summary_tasks)
  /\ occurs_in (js "6. STRICT LIMIT: Maximum 150 words total") dashboard_rules
  /\ occurs_in (js "6.  Keep the entire response under 300 words.") summary_tasks.
Proof.
  refine (conj _ (conj _ (conj _ _))).
  - intros b prompt Hp. unfold Dashboard.build_prompt in Hp.
    destruct (Dashboard.virtueList b) as [e|vl]; [discriminate Hp|].
    set (a := or_else (Dashboard.assessmentSummary b) (js "Assessment completed")) in *.
    set (p := Dashboard.progressSummary b) in *.
    set (r := Dashboard.recentUpdate b) in *.
    set (f := Dashboard.first_time_text b) in *.
    remember (join nl (Dashboard.prompt_lines a vl p r f)) as built eqn:Hbuilt.
    injection Hp as <-. subst built.
    set (L0 := Dashboard.prompt_lines [] [] [] [] []).
    remember (firstn 11 (skipn 11 (Dashboard.prompt_lines a vl p r f))) as mid eqn:Hmid.
    assert (Hsplit : Dashboard.prompt_lines a vl p r f
                     = firstn 11 L0 ++ mid ++ skipn 22 L0)
      by (subst mid; reflexivity).
    assert (Hlen : length mid = 11) by (subst mid; reflexivity).
    exists (join nl mid).
    unfold dashboard_preamble, dashboard_rules. fold L0. rewrite Hsplit.
    rewrite join_app.
    + rewrite join_app; [reflexivity| |]; intros H;
        apply (f_equal (@length jsstring)) in H; [rewrite Hlen in H|]; discriminate H.
    + intros H. apply (f_equal (@length jsstring)) in H. discriminate H.
    + intros H. apply (f_equal (@length jsstring)) in H.
      rewrite length_app, Hlen in H. discriminate H.
  - intros l virtues. unfold Summary.build_prompt, summary_tasks.
    set (q := Summary.priorityList virtues). set (c := Summary.combinedAnalyses l).
    remember (firstn 10 (Summary.prompt_lines q c)) as top eqn:Htop.
    assert (Hsplit : Summary.prompt_lines q c
                     = top ++ skipn 10 (Summary.prompt_lines [] []))
      by (subst top; reflexivity).
    assert (Hlen : length top = 10) by (subst top; reflexivity).
    exists (join nl top). rewrite Hsplit.
    rewrite join_app; [reflexivity| |]; intros H;
      apply (f_equal (@length jsstring)) in H; [rewrite Hlen in H|]; discriminate H.
  - unfold dashboard_rules. apply occurs_in_join with 7. reflexivity.
  - unfold summary_tasks.
    apply occurs_in_trans
      with (js "          " ++ js "6.  Keep the entire response under 300 words.").
    + apply occurs_in_app_r, occurs_in_refl.
    + apply occurs_in_join with 7. reflexivity.
Qed.

(** The dashboard fallback names the first prioritized virtue when it has
    a name, and the Dismantling stage for a first-time user; the summary
    fallback names the first two virtues and depends on no other. *)
Theorem fallbacks_name_the_top_virtues :
  (forall (b : Dashboard.Body) v rest name,
      Dashboard.prioritizedVirtues b = IsArray (v :: rest) ->
      virtue v = Val name ->
      name <> [] ->
      occurs_in name (Dashboard.fallback_text b)
      /\ (Dashboard.isFirstTime b = Val true ->
          occurs_in (name ++ js " in the Dismantling stage") (Dashboard.fallback_text b)))
  /\ (forall (v1 v2 : PrioritizedVirtue) rest n1 n2,
         virtue v1 = Val n1 ->
         virtue v2 = Val n2 ->
         occurs_in (n1 ++ js " and " ++ n2) (Summary.fallback_text (v1 :: v2 :: rest))
         /\ Summary.fallback_text (v1 :: v2 :: rest) = Summary.fallback_text [v1; v2]).
Proof.
  split.
  - intros b v rest name Hl Hv Hne.
    assert (Htop : Dashboard.topVirtue b = name).
    { unfold Dashboard.topVirtue. rewrite Hl. simpl. rewrite Hv. simpl.
      now destruct name. }
    unfold Dashboard.fallback_text, Dashboard.first_time. rewrite Htop. split.
    + apply occurs_in_app_r, occurs_in_app_l.
      destruct (match Dashboard.isFirstTime b with
                | Val x => x
                | Missing | Null => false
                end).
      * apply occurs_in_app_r, occurs_in_app_l, occurs_in_refl.
      * apply occurs_in_app_r, occurs_in_app_l, occurs_in_refl.
    + intros Hft. rewrite Hft.
      apply occurs_in_app_r, occurs_in_app_l, occurs_in_app_r.
      change (js " in the Dismantling stage to begin recognizing character defects.")
        with (js " in the Dismantling stage"
                ++ js " to begin recognizing character defects.").
      rewrite app_assoc. apply occurs_in_app_l, occurs_in_refl.
  - intros v1 v2 rest n1 n2 H1 H2. split; [|reflexivity].
    unfold Summary.fallback_text, Summary.top_two. simpl firstn. simpl map.
    rewrite H1, H2. simpl Summary.joined.
    apply occurs_in_app_r, occurs_in_app_l.
    rewrite join_cons2. apply occurs_in_refl.
Qed.

End Prompts.

(* ===================================================================== *)
(** ** What a cut keeps, what a key holds, what decides the status         *)
(* ===================================================================== *)

Lemma Forall_join (P : N -> Prop) (sep : jsstring) (l : list jsstring) :
  Forall P sep -> Forall (Forall P) l -> Forall P (join sep l).
Proof.
  intros Hsep. induction 1 as [|x l Hx Hl IH]; [constructor|].
  destruct l as [|y l]; [exact Hx|].
  rewrite join_cons2. apply Forall_app. split; [exact Hx|].
  apply Forall_app. split; [exact Hsep | exact IH].
Qed.

(** A text that was cut holds no whitespace but single plain spaces: the
    line breaks and tabs of the part that is kept are lost. *)
Theorem cut_text_has_only_plain_spaces (maxWords : nat) (t : jsstring) :
  maxWords < length (split_ws t) ->
  enforce_word_limit maxWords t
  = join (js " ") (firstn maxWords (split_ws t)) ++ js "..."
  /\ Forall plain (enforce_word_limit maxWords t).
Proof.
  intros Hlt.
  assert (Hcut : enforce_word_limit maxWords t
                 = join (js " ") (firstn maxWords (split_ws t)) ++ js "...").
  { unfold enforce_word_limit. apply Nat.ltb_lt in Hlt. now rewrite Hlt. }
  split; [exact Hcut|]. rewrite Hcut.
  apply Forall_app. split.
  - apply Forall_join.
    + constructor; [intros _; reflexivity | constructor].
    + apply Forall_firstn'.
      eapply Forall_impl; [|apply split_ws_spacefree].
      intros p Hp. eapply Forall_impl; [|exact Hp].
      intros c Hc Hs. rewrite Hc in Hs. discriminate Hs.
  - repeat constructor; intros H; vm_compute in H; discriminate H.
Qed.

Section MoreKeys.
Context {JN : JsNumber}.

(** Only the first two pieces of a key are read: what follows a second
    hyphen changes nothing in the line. *)
Theorem keys_are_read_up_to_the_second_hyphen (virtues : list PrioritizedVirtue)
    (id n rest status : jsstring) :
  ~ In hyphen id ->
  ~ In hyphen n ->
  Dashboard.progress_line virtues (id ++ js "-" ++ n ++ js "-" ++ rest, status)
  = Dashboard.progress_line virtues (id ++ js "-" ++ n, status).
Proof.
  intros Hid Hn. unfold Dashboard.progress_line, Dashboard.virtueId_of, Dashboard.stage_of.
  change (id ++ js "-" ++ n ++ js "-" ++ rest) with (id ++ hyphen :: (n ++ hyphen :: rest)).
  change (id ++ js "-" ++ n) with (id ++ hyphen :: n).
  rewrite !split_on_prefix by assumption.
  rewrite (@split_on_whole hyphen n Hn). reflexivity.
Qed.

(** The status of an answer does not depend on the model service: whatever
    the candidates answer, the request alone decides between 204, 400, 500
    and 200. *)
Theorem status_is_independent_of_the_models (development development' : bool)
    (generate generate' : oracle) :
  (forall req : http_request Dashboard.Body,
      status (fst (Dashboard.getDashboardPrompt development generate req))
      = status (fst (Dashboard.getDashboardPrompt development' generate' req)))
  /\ (forall req : http_request Summary.Body,
         status (fst (Summary.getSummaryAnalysis development generate req))
         = status (fst (Summary.getSummaryAnalysis development' generate' req))).
Proof.
  split; intros req.
  - destruct (str_eqb (method req) (js "OPTIONS")) eqn:Hm.
    { unfold Dashboard.getDashboardPrompt. now rewrite Hm. }
    assert (Hm' : method req <> js "OPTIONS").
    { intros E. rewrite E, str_eqb_refl in Hm. discriminate Hm. }
    destruct (body req) as [| |b] eqn:Hb;
      try solve [unfold Dashboard.getDashboardPrompt; now rewrite Hm, Hb].
    destruct (Dashboard.build_prompt b) as [e|prompt] eqn:Hp.
    { unfold Dashboard.getDashboardPrompt. now rewrite Hm, Hb, Hp. }
    destruct (dashboard_loop_of_request development generate req b prompt Hm' Hb Hp)
      as (st & evs & _ & ->).
    destruct (dashboard_loop_of_request development' generate' req b prompt Hm' Hb Hp)
      as (st' & evs' & _ & ->).
    reflexivity.
  - destruct (str_eqb (method req) (js "OPTIONS")) eqn:Hm.
    { unfold Summary.getSummaryAnalysis. now rewrite Hm. }
    assert (Hm' : method req <> js "OPTIONS").
    { intros E. rewrite E, str_eqb_refl in Hm. discriminate Hm. }
    destruct (Summary.validate (body req)) as [[l virtues]|] eqn:Hv.
    2: { unfold Summary.getSummaryAnalysis. now rewrite Hm, Hv. }
    destruct (summary_loop_of_request development generate req l virtues Hm' Hv)
      as (st & evs & _ & ->).
    destruct (summary_loop_of_request development' generate' req l virtues Hm' Hv)
      as (st' & evs' & _ & ->).
    reflexivity.
Qed.

End MoreKeys.

(* ===================================================================== *)
(** ** The loop against the raw results of the calls                       *)
(* ===================================================================== *)

(** A result without a text part is an error on either endpoint. *)
Lemma attempt_no_part (ep : endpoint) (r : gen_result) :
  no_part r = true -> exists e, attempt ep r = inl e.
Proof.
  unfold no_part, attempt, read_text. destruct r as [e|response]; [eauto|].
  destruct (candidates response) as [[|c cs]|]; simpl; eauto.
  destruct (content c) as [ct|]; eauto.
  destruct (parts ct) as [[|p ps]|]; simpl; eauto.
  discriminate.
Qed.

(** The summary loop assigns the text of a response as it is. *)
Lemma attempt_summary_text (r : gen_result) (t : jsstring) :
  text_of_response r = Some t -> attempt Summary.summary r = inr (Some t).
Proof.
  unfold text_of_response, attempt, read_text. destruct r as [e|response]; [discriminate|].
  destruct (candidates response) as [[|c cs]|]; simpl; try discriminate.
  destruct (content c) as [ct|]; try discriminate.
  destruct (parts ct) as [[|p ps]|]; simpl; try discriminate.
  now intros ->.
Qed.

(** The dashboard loop assigns it cut to 150 words. *)
Lemma attempt_dashboard_text (r : gen_result) (t : jsstring) :
  text_of_response r = Some t ->
  attempt Dashboard.dashboard r = inr (Some (enforce_word_limit 150 t)).
Proof.
  unfold text_of_response, attempt, read_text. destruct r as [e|response]; [discriminate|].
  destruct (candidates response) as [[|c cs]|]; simpl; try discriminate.
  destruct (content c) as [ct|]; try discriminate.
  destruct (parts ct) as [[|p ps]|]; simpl; try discriminate.
  now intros ->.
Qed.

(** A call found in the trace of the loop is the call of its candidate; if
    it led to a text the loop ended there. *)
Lemma try_models_invocation (ep : endpoint) (generate : oracle) (prompt : jsstring) :
  forall models i st k c,
    nth_error (invocations (snd (try_models ep generate prompt i models st))) k = Some c ->
    exists m,
      nth_error models k = Some m
      /\ c = call_for ep prompt m
      /\ forall t,
           attempt ep (generate (i + k) c) = inr t ->
           generatedText (fst (try_models ep generate prompt i models st)) = t
           /\ successfulModel (fst (try_models ep generate prompt i models st)) = m
           /\ invocations (snd (try_models ep generate prompt i models st))
              = map (call_for ep prompt) (firstn (S k) models).
Proof.
  induction models as [|m rest IH]; intros i st k c H; simpl in *.
  - now destruct k.
  - destruct (attempt ep (generate i (call_for ep prompt m))) as [e|t0] eqn:Ha.
    + specialize (IH (S i)
                    {| generatedText := generatedText st; lastError := Some e;
                       successfulModel := successfulModel st |}).
      destruct (try_models ep generate prompt (S i) rest
                  {| generatedText := generatedText st; lastError := Some e;
                     successfulModel := successfulModel st |}) as [st' evs] eqn:Hr.
      simpl in H. destruct k as [|k]; simpl in H.
      * injection H as <-. exists m. split; [reflexivity|]. split; [reflexivity|].
        intros t Ht. rewrite Nat.add_0_r in Ht. congruence.
      * destruct (IH k c H) as (m' & Hm' & Hc & Hend).
        exists m'. split; [exact Hm'|]. split; [exact Hc|].
        intros t Ht. rewrite Nat.add_succ_r in Ht.
        destruct (Hend t Ht) as (H1 & H2 & H3). simpl in *.
        repeat split; try assumption. now rewrite H3.
    + simpl in H. destruct k as [|k]; simpl in H; [|now destruct k].
      injection H as <-. exists m. split; [reflexivity|]. split; [reflexivity|].
      intros t Ht. rewrite Nat.add_0_r in Ht. simpl. split; [congruence|].
      split; reflexivity.
Qed.

(** The outcome of the [k]-th candidate. *)
Lemma outcomes_from_nth (ep : endpoint) (generate : oracle) (prompt : jsstring) :
  forall models i k m,
    nth_error models k = Some m ->
    nth_error (outcomes_from ep generate prompt i models) k
    = Some (attempt ep (generate (i + k) (call_for ep prompt m))).
Proof.
  induction models as [|m0 rest IH]; intros i k m H.
  - now destruct k.
  - destruct k as [|k]; simpl in *.
    + injection H as <-. now rewrite Nat.add_0_r.
    + rewrite Nat.add_succ_r. now apply (IH (S i)).
Qed.

(** When every call the loop made came back without a text part, every
    outcome is an error. *)
Lemma try_models_no_part (ep : endpoint) (generate : oracle) (prompt : jsstring) :
  forall models i st,
    (forall k c,
        nth_error (invocations (snd (try_models ep generate prompt i models st))) k
        = Some c ->
        no_part (generate (i + k) c) = true) ->
    exists errors, all_errors (outcomes_from ep generate prompt i models) = Some errors.
Proof.
  induction models as [|m rest IH]; intros i st H; simpl in *.
  - eauto.
  - destruct (attempt ep (generate i (call_for ep prompt m))) as [e|t0] eqn:Ha.
    + specialize (IH (S i)
                    {| generatedText := generatedText st; lastError := Some e;
                       successfulModel := successfulModel st |}).
      destruct (try_models ep generate prompt (S i) rest
                  {| generatedText := generatedText st; lastError := Some e;
                     successfulModel := successfulModel st |}) as [st' evs] eqn:Hr.
      simpl in H.
      destruct IH as [es Hes].
      { intros k c Hk. specialize (H (S k) c Hk).
        now rewrite Nat.add_succ_r in H. }
      rewrite Hes. eauto.
    + simpl in H. specialize (H 0 (call_for ep prompt m) eq_refl).
      rewrite Nat.add_0_r in H.
      destruct (attempt_no_part ep _ H) as [e He]. congruence.
Qed.

Lemma modelNames_not_empty (k : nat) (m : jsstring) :
  nth_error modelNames k = Some m -> m <> [].
Proof.
  intros H E. subst m.
  do 5 (destruct k as [|k]; [discriminate H|]). now destruct k.
Qed.

Lemma nth_error_firstn_modelNames (k : nat) (m : jsstring) :
  nth_error modelNames k = Some m -> nth k modelNames [] = m.
Proof. intros H. now apply nth_error_nth. Qed.

Section RawResults.
Context {JN : JsNumber}.

(** The calls of the dashboard handler are those of its loop, and there are
    none unless the request passes the guards. *)
Lemma dashboard_invocations (development : bool) (generate : oracle)
    (req : http_request Dashboard.Body) :
  (exists b prompt,
      method req <> js "OPTIONS"
      /\ body req = ObjectBody b
      /\ Dashboard.build_prompt b = inr prompt
      /\ invocations (snd (Dashboard.getDashboardPrompt development generate req))
         = invocations (snd (try_models Dashboard.dashboard generate prompt 0
                               modelNames initial_state)))
  \/ invocations (snd (Dashboard.getDashboardPrompt development generate req)) = [].
Proof.
  destruct (str_eqb (method req) (js "OPTIONS")) eqn:Hm.
  { right. unfold Dashboard.getDashboardPrompt. now rewrite Hm. }
  assert (Hm' : method req <> js "OPTIONS").
  { intros E. rewrite E, str_eqb_refl in Hm. discriminate Hm. }
  destruct (body req) as [| |b] eqn:Hb;
    try (right; unfold Dashboard.getDashboardPrompt; now rewrite Hm, Hb).
  destruct (Dashboard.build_prompt b) as [e|prompt] eqn:Hp.
  { right. unfold Dashboard.getDashboardPrompt. now rewrite Hm, Hb, Hp. }
  left. exists b, prompt. repeat split; try assumption.
  destruct (dashboard_loop_of_request development generate req b prompt Hm' Hb Hp)
    as (st & evs & Hrun & ->).
  rewrite Hrun. simpl snd. rewrite invocations_app.
  destruct (falsy (generatedText st)); simpl; now rewrite app_nil_r.
Qed.

Lemma summary_invocations (development : bool) (generate : oracle)
    (req : http_request Summary.Body) :
  (exists l virtues,
      method req <> js "OPTIONS"
      /\ Summary.validate (body req) = Some (l, virtues)
      /\ invocations (snd (Summary.getSummaryAnalysis development generate req))
         = invocations (snd (try_models Summary.summary generate
                               (Summary.build_prompt l virtues) 0
                               modelNames initial_state)))
  \/ invocations (snd (Summary.getSummaryAnalysis development generate req)) = [].
Proof.
  destruct (str_eqb (method req) (js "OPTIONS")) eqn:Hm.
  { right. unfold Summary.getSummaryAnalysis. now rewrite Hm. }
  assert (Hm' : method req <> js "OPTIONS").
  { intros E. rewrite E, str_eqb_refl in Hm. discriminate Hm. }
  destruct (Summary.validate (body req)) as [[l virtues]|] eqn:Hv.
  2: { right. unfold Summary.getSummaryAnalysis. now rewrite Hm, Hv. }
  left. exists l, virtues. repeat split; try assumption.
  destruct (summary_loop_of_request development generate req l virtues Hm' Hv)
    as (st & evs & Hrun & ->).
  rewrite Hrun. simpl snd. rewrite invocations_app.
  destruct (falsy (generatedText st)); simpl; now rewrite app_nil_r.
Qed.

(** A call of the dashboard handler that is answered with a text that is
    not empty ends the loop: the answer is that text, cut to 150 words,
    under the name the call went to, and no call follows. *)
Lemma dashboard_text_ends_the_loop (development : bool) (generate : oracle)
    (req : http_request Dashboard.Body) (i : nat) (c : generation_call) (t : jsstring) :
  nth_error (invocations (snd (Dashboard.getDashboardPrompt development generate req))) i
  = Some c ->
  text_of_response (generate i c) = Some t ->
  t <> [] ->
  fst (Dashboard.getDashboardPrompt development generate req)
  = send 200 (PromptBody (enforce_word_limit 150 t) (model c) true)
  /\ nth_error modelNames i = Some (model c)
  /\ invoked_models (snd (Dashboard.getDashboardPrompt development generate req))
     = firstn (S i) modelNames
  /\ last_diagnostic (snd (Dashboard.getDashboardPrompt development generate req)) = None.
Proof.
  intros Hcall Htext Hne.
  destruct (dashboard_invocations development generate req)
    as [(b & prompt & Hm & Hb & Hp & Hinv)|Hnone].
  2: { rewrite Hnone in Hcall. now destruct i. }
  unfold invoked_models. rewrite Hinv in *.
  destruct (try_models_invocation Dashboard.dashboard generate prompt modelNames 0
              initial_state i c Hcall) as (m & Hnth & Hc & Hend).
  specialize (Hend _ (attempt_dashboard_text _ _ Htext)).
  pose proof (try_models_trace Dashboard.dashboard generate prompt modelNames 0
                initial_state) as (_ & _ & Hdiag).
  destruct (dashboard_loop_of_request development generate req b prompt Hm Hb Hp)
    as (st & evs & Hrun & ->).
  rewrite Hrun in *. cbn [fst snd] in *.
  destruct Hend as (Hst & Hmodel & Hcalls).
  assert (Hmc : model c = m) by now subst c.
  assert (Hcut : enforce_word_limit 150 t <> []).
  { intros E. now apply enforce_word_limit_empty in E. }
  assert (Hm0 : m <> []) by exact (modelNames_not_empty i m Hnth).
  rewrite Hst, Hmodel, Hmc, Hcalls. simpl falsy.
  destruct (enforce_word_limit 150 t) as [|x xs] eqn:Ecut; [contradiction|].
  destruct m as [|y ys] eqn:Em; [contradiction|].
  simpl. rewrite last_diagnostic_app. simpl. rewrite Hdiag.
  repeat split; try assumption.
  rewrite map_map. simpl. now rewrite map_id.
Qed.

(** The same on the summary endpoint, where the text is answered as it is. *)
Lemma summary_text_ends_the_loop (development : bool) (generate : oracle)
    (req : http_request Summary.Body) (i : nat) (c : generation_call) (t : jsstring) :
  nth_error (invocations (snd (Summary.getSummaryAnalysis development generate req))) i
  = Some c ->
  text_of_response (generate i c) = Some t ->
  t <> [] ->
  fst (Summary.getSummaryAnalysis development generate req)
  = send 200 (SummaryBody t (model c) true)
  /\ nth_error modelNames i = Some (model c)
  /\ invoked_models (snd (Summary.getSummaryAnalysis development generate req))
     = firstn (S i) modelNames
  /\ last_diagnostic (snd (Summary.getSummaryAnalysis development generate req)) = None.
Proof.
  intros Hcall Htext Hne.
  destruct (summary_invocations development generate req)
    as [(l & virtues & Hm & Hv & Hinv)|Hnone].
  2: { rewrite Hnone in Hcall. now destruct i. }
  unfold invoked_models. rewrite Hinv in *.
  destruct (try_models_invocation Summary.summary generate
              (Summary.build_prompt l virtues) modelNames 0
              initial_state i c Hcall) as (m & Hnth & Hc & Hend).
  specialize (Hend _ (attempt_summary_text _ _ Htext)).
  pose proof (try_models_trace Summary.summary generate
                (Summary.build_prompt l virtues) modelNames 0
                initial_state) as (_ & _ & Hdiag).
  destruct (summary_loop_of_request development generate req l virtues Hm Hv)
    as (st & evs & Hrun & ->).
  rewrite Hrun in *. cbn [fst snd] in *.
  destruct Hend as (Hst & Hmodel & Hcalls).
  assert (Hmc : model c = m) by now subst c.
  assert (Hm0 : m <> []) by exact (modelNames_not_empty i m Hnth).
  rewrite Hst, Hmodel, Hmc, Hcalls. simpl falsy.
  destruct t as [|x xs] eqn:Et; [contradiction|].
  destruct m as [|y ys] eqn:Em; [contradiction|].
  simpl. rewrite last_diagnostic_app. simpl. rewrite Hdiag.
  repeat split; try assumption.
  rewrite map_map. simpl. now rewrite map_id.
Qed.

End RawResults.

Section RawClaims.
Context {JN : JsNumber}.

(** C9.  Whenever a call of the summary handler is answered with a text
    that is not empty, the answer of the handler carries that very text,
    whatever its length, under the name of the model that was called.  The
    same call on the dashboard endpoint is answered with the text put
    through the 150-word cut. *)
Theorem summary_text_is_returned_unmodified (development : bool) (generate : oracle) :
  (forall (req : http_request Summary.Body) i c t,
      nth_error (invocations (snd (Summary.getSummaryAnalysis development generate req))) i
      = Some c ->
      text_of_response (generate i c) = Some t ->
      t <> [] ->
      fst (Summary.getSummaryAnalysis development generate req)
      = send 200 (SummaryBody t (model c) true))
  /\
  (forall (req : http_request Dashboard.Body) i c t,
      nth_error (invocations (snd (Dashboard.getDashboardPrompt development generate req))) i
      = Some c ->
      text_of_response (generate i c) = Some t ->
      t <> [] ->
      fst (Dashboard.getDashboardPrompt development generate req)
      = send 200 (PromptBody (enforce_word_limit 150 t) (model c) true)).
Proof.
  split; intros req i c t Hcall Htext Hne.
  - exact (proj1 (summary_text_ends_the_loop development generate req i c t
                    Hcall Htext Hne)).
  - exact (proj1 (dashboard_text_ends_the_loop development generate req i c t
                    Hcall Htext Hne)).
Qed.

(** The first structurally valid response ends the loop, on either
    endpoint: when the call number [i] of a request is answered with a
    structurally valid response, it went to candidate [i] of the list, the
    calls of the request are the first [i + 1] candidates in order, and no
    "All models failed" diagnostic is printed. *)
Theorem valid_response_ends_the_calls (development : bool) (generate : oracle) :
  (forall (req : http_request Dashboard.Body) i c,
      nth_error (invocations (snd (Dashboard.getDashboardPrompt development generate req))) i
      = Some c ->
      structurally_valid (generate i c) = true ->
      nth_error modelNames i = Some (model c)
      /\ invoked_models (snd (Dashboard.getDashboardPrompt development generate req))
         = firstn (S i) modelNames
      /\ last_diagnostic (snd (Dashboard.getDashboardPrompt development generate req))
         = None)
  /\
  (forall (req : http_request Summary.Body) i c,
      nth_error (invocations (snd (Summary.getSummaryAnalysis development generate req))) i
      = Some c ->
      structurally_valid (generate i c) = true ->
      nth_error modelNames i = Some (model c)
      /\ invoked_models (snd (Summary.getSummaryAnalysis development generate req))
         = firstn (S i) modelNames
      /\ last_diagnostic (snd (Summary.getSummaryAnalysis development generate req))
         = None).
Proof.
  split; intros req i c Hcall Hvalid; unfold structurally_valid in Hvalid;
    destruct (text_of_response (generate i c)) as [[|x t]|] eqn:Htext;
    try discriminate Hvalid.
  - refine (proj2 (dashboard_text_ends_the_loop development generate req i c (x :: t)
                     Hcall Htext _)). discriminate.
  - refine (proj2 (summary_text_ends_the_loop development generate req i c (x :: t)
                     Hcall Htext _)). discriminate.
Qed.

(** When every call of a request came back without a text part (rejected,
    or a response without candidate, content or part), all five candidates
    were called and the answer is the fallback message of the endpoint under
    the name "fallback", with status 200. *)
Theorem calls_without_text_lead_to_the_fallback (development : bool) (generate : oracle) :
  (forall (req : http_request Dashboard.Body) b,
      method req <> js "OPTIONS" ->
      body req = ObjectBody b ->
      dashboard_well_formed b ->
      (forall i c,
          nth_error (invocations (snd (Dashboard.getDashboardPrompt development
                                         generate req))) i = Some c ->
          no_part (generate i c) = true) ->
      fst (Dashboard.getDashboardPrompt development generate req)
      = send 200 (PromptBody (Dashboard.fallback_text b) (js "fallback") true)
      /\ invoked_models (snd (Dashboard.getDashboardPrompt development generate req))
         = modelNames)
  /\
  (forall (req : http_request Summary.Body) l virtues,
      method req <> js "OPTIONS" ->
      Summary.validate (body req) = Some (l, virtues) ->
      (forall i c,
          nth_error (invocations (snd (Summary.getSummaryAnalysis development
                                         generate req))) i = Some c ->
          no_part (generate i c) = true) ->
      fst (Summary.getSummaryAnalysis development generate req)
      = send 200 (SummaryBody (Summary.fallback_text virtues) (js "fallback") true)
      /\ invoked_models (snd (Summary.getSummaryAnalysis development generate req))
         = modelNames).
Proof.
  split.
  - intros req b Hm Hb Hwf Hall.
    destruct (well_formed_prompt Hwf) as [prompt Hp].
    destruct (dashboard_loop_of_request development generate req b prompt Hm Hb Hp)
      as (st & evs & Hrun & Hreq).
    assert (Hinv : invocations (snd (Dashboard.getDashboardPrompt development
                                       generate req)) = invocations evs).
    { rewrite Hreq. simpl snd. rewrite invocations_app.
      destruct (falsy (generatedText st)); simpl; now rewrite app_nil_r. }
    unfold invoked_models. rewrite Hinv in *.
    destruct (try_models_no_part Dashboard.dashboard generate prompt modelNames 0
                initial_state) as [errors Herrors].
    { rewrite Hrun. exact Hall. }
    pose proof (try_models_all_errors Dashboard.dashboard generate prompt
                  modelNames 0 initial_state Herrors) as (Hst & _ & Hcalls).
    rewrite Hrun in Hst, Hcalls. cbn [fst snd] in Hst, Hcalls.
    rewrite Hreq, Hcalls, Hst. split; [reflexivity|].
    rewrite map_map. simpl. reflexivity.
  - intros req l virtues Hm Hv Hall.
    destruct (summary_loop_of_request development generate req l virtues Hm Hv)
      as (st & evs & Hrun & Hreq).
    assert (Hinv : invocations (snd (Summary.getSummaryAnalysis development
                                       generate req)) = invocations evs).
    { rewrite Hreq. simpl snd. rewrite invocations_app.
      destruct (falsy (generatedText st)); simpl; now rewrite app_nil_r. }
    unfold invoked_models. rewrite Hinv in *.
    destruct (try_models_no_part Summary.summary generate
                (Summary.build_prompt l virtues) modelNames 0
                initial_state) as [errors Herrors].
    { rewrite Hrun. exact Hall. }
    pose proof (try_models_all_errors Summary.summary generate
                  (Summary.build_prompt l virtues)
                  modelNames 0 initial_state Herrors) as (Hst & _ & Hcalls).
    rewrite Hrun in Hst, Hcalls. cbn [fst snd] in Hst, Hcalls.
    rewrite Hreq, Hcalls, Hst. split; [reflexivity|].
    rewrite map_map. simpl. reflexivity.
Qed.

(** When every call of a request came back without a text part and the
    fifth call was rejected, the error printed with the "All models failed"
    diagnostic is the error the fifth call was rejected with; when the
    fifth call resolved with a response without candidates, it is the
    "Invalid response format" error of the endpoint. *)
Theorem rejection_of_the_last_call_is_reported (development : bool) (generate : oracle) :
  (forall (req : http_request Dashboard.Body) c5,
      (forall i c,
          nth_error (invocations (snd (Dashboard.getDashboardPrompt development
                                         generate req))) i = Some c ->
          no_part (generate i c) = true) ->
      nth_error (invocations (snd (Dashboard.getDashboardPrompt development
                                     generate req))) 4 = Some c5 ->
      (forall e5,
          generate 4 c5 = Rejected e5 ->
          last_diagnostic (snd (Dashboard.getDashboardPrompt development generate req))
          = Some (js "All models failed:", Some e5))
      /\ (generate 4 c5 = Resolved {| candidates := None |} ->
          last_diagnostic (snd (Dashboard.getDashboardPrompt development generate req))
          = Some (js "All models failed:",
                  Some (Error (js "Invalid response format from model")))))
  /\
  (forall (req : http_request Summary.Body) c5,
      (forall i c,
          nth_error (invocations (snd (Summary.getSummaryAnalysis development
                                         generate req))) i = Some c ->
          no_part (generate i c) = true) ->
      nth_error (invocations (snd (Summary.getSummaryAnalysis development
                                     generate req))) 4 = Some c5 ->
      (forall e5,
          generate 4 c5 = Rejected e5 ->
          last_diagnostic (snd (Summary.getSummaryAnalysis development generate req))
          = Some (js "All summary models failed:", Some e5))
      /\ (generate 4 c5 = Resolved {| candidates := None |} ->
          last_diagnostic (snd (Summary.getSummaryAnalysis development generate req))
          = Some (js "All summary models failed:",
                  Some (Error (js "Invalid response format from summary model"))))).
Proof.
  split.
  - intros req c5 Hall Hfifth.
    destruct (dashboard_invocations development generate req)
      as [(b & prompt & Hm & Hb & Hp & Hinv)|Hnone].
    2: { rewrite Hnone in Hfifth. discriminate Hfifth. }
    rewrite Hinv in Hall, Hfifth.
    destruct (try_models_no_part Dashboard.dashboard generate prompt modelNames 0
                initial_state Hall) as [errors Herrors].
    destruct (try_models_invocation Dashboard.dashboard generate prompt modelNames 0
                initial_state 4 c5 Hfifth) as (m & Hnth & Hc & _).
    pose proof (outcomes_from_nth Dashboard.dashboard generate prompt modelNames 0 4 m
                  Hnth) as Hout.
    change (0 + 4) with 4 in Hout. rewrite <- Hc in Hout.
    destruct (last_of_five _ Herrors (outcomes_from_length Dashboard.dashboard generate
                                      prompt modelNames 0))
      as (e & Hnth5 & Hlast).
    pose proof (try_models_all_errors Dashboard.dashboard generate prompt
                  modelNames 0 initial_state Herrors) as (Hst & Hdiag & _).
    destruct (dashboard_loop_of_request development generate req b prompt Hm Hb Hp)
      as (st & evs & Hrun & ->).
    rewrite Hrun in Hst, Hdiag. cbn [fst snd] in Hst, Hdiag.
    assert (Hprinted : last_diagnostic
                         (snd (send 200
                                 (PromptBody
                                    (if falsy (generatedText st)
                                     then Dashboard.fallback_text b
                                     else text_value (generatedText st))
                                    (or_else (Some (successfulModel st)) (js "fallback"))
                                    true),
                               evs ++ (if falsy (generatedText st)
                                       then [ConsoleError (js "All models failed:")
                                                          (lastError st)]
                                       else [])))
                       = Some (js "All models failed:", Some e)).
    { subst st. simpl. rewrite last_diagnostic_app. simpl. now rewrite Hlast. }
    rewrite Hprinted. rewrite Hout in Hnth5.
    split.
    + intros e5 Hrej. rewrite Hrej in Hnth5. simpl in Hnth5. congruence.
    + intros Hres. rewrite Hres in Hnth5. simpl in Hnth5.
      injection Hnth5 as <-. reflexivity.
  - intros req c5 Hall Hfifth.
    destruct (summary_invocations development generate req)
      as [(l & virtues & Hm & Hv & Hinv)|Hnone].
    2: { rewrite Hnone in Hfifth. discriminate Hfifth. }
    rewrite Hinv in Hall, Hfifth.
    set (prompt := Summary.build_prompt l virtues) in *.
    destruct (try_models_no_part Summary.summary generate prompt modelNames 0
                initial_state Hall) as [errors Herrors].
    destruct (try_models_invocation Summary.summary generate prompt modelNames 0
                initial_state 4 c5 Hfifth) as (m & Hnth & Hc & _).
    pose proof (outcomes_from_nth Summary.summary generate prompt modelNames 0 4 m
                  Hnth) as Hout.
    change (0 + 4) with 4 in Hout. rewrite <- Hc in Hout.
    destruct (last_of_five _ Herrors (outcomes_from_length Summary.summary generate
                                      prompt modelNames 0))
      as (e & Hnth5 & Hlast).
    pose proof (try_models_all_errors Summary.summary generate prompt
                  modelNames 0 initial_state Herrors) as (Hst & Hdiag & _).
    destruct (summary_loop_of_request development generate req l virtues Hm Hv)
      as (st & evs & Hrun & ->).
    fold prompt in Hrun.
    rewrite Hrun in Hst, Hdiag. cbn [fst snd] in Hst, Hdiag.
    assert (Hprinted : last_diagnostic
                         (snd (send 200
                                 (SummaryBody
                                    (if falsy (generatedText st)
                                     then Summary.fallback_text virtues
                                     else text_value (generatedText st))
                                    (or_else (Some (successfulModel st)) (js "fallback"))
                                    true),
                               evs ++ (if falsy (generatedText st)
                                       then [ConsoleError (js "All summary models failed:")
                                                          (lastError st)]
                                       else [])))
                       = Some (js "All summary models failed:", Some e)).
    { subst st. simpl. rewrite last_diagnostic_app. simpl. now rewrite Hlast. }
    rewrite Hprinted. rewrite Hout in Hnth5.
    split.
    + intros e5 Hrej. rewrite Hrej in Hnth5. simpl in Hnth5. congruence.
    + intros Hres. rewrite Hres in Hnth5. simpl in Hnth5.
      injection Hnth5 as <-. reflexivity.
Qed.

End RawClaims.

(* ===================================================================== *)
(** ** Searching a text                                                    *)
(* ===================================================================== *)



(* ===================================================================== *)
(** ** Runs on concrete requests                                           *)
(* ===================================================================== *)

(** The run the documentation describes: two failures, then a success.
    The third candidate is reported and the last two are never called. *)
Example executor_fail_fail_success :
  let run :=
    try_models Dashboard.dashboard
      (scripted [failure "first"; failure "second"; answer (js "Keep going.")])
      (js "prompt") 0 modelNames initial_state in
  generatedText (fst run) = Some (js "Keep going.")
  /\ successfulModel (fst run) = js "gemini-1.5-flash-lite"
  /\ lastError (fst run) = Some (Error (js "second"))
  /\ invoked_models (snd run)
     = [js "gemini-2.5-flash-lite"; js "gemini-2.0-flash-lite";
        js "gemini-1.5-flash-lite"].
Proof. vm_compute. repeat split. Qed.

(** C1.  The first candidate answers with an empty text.  The loop takes
    this for a success and records the candidate, the handler then takes
    the empty text for "no model succeeded": the answer carries the
    fallback message under the name of a model, and the trace holds both
    the success line and the "All models failed:" diagnostic.  On the
    summary endpoint the same happens for a part without text. *)
Theorem empty_text_is_answered_under_model_name (JN : JsNumber) (development : bool) :
  let run :=
    Dashboard.getDashboardPrompt development (scripted [answer []])
                                 empty_dashboard_request in
  let run' :=
    Summary.getSummaryAnalysis development
      (scripted [Resolved (response_with_text None)]) (summary_request [] []) in
  payload (fst run)
  = PromptBody
      (js "Welcome to your virtue development journey! Continue your progress by focusing on the next stage of your priority virtue. Click the stage buttons to begin your reflection.")
      (js "gemini-2.5-flash-lite") true
  /\ payload (fst run)
     = PromptBody
         (Dashboard.fallback_text
            {| Dashboard.assessmentSummary := None;
               Dashboard.prioritizedVirtues := Absent;
               Dashboard.stageProgress := None;
               Dashboard.recentProgress := None;
               Dashboard.isFirstTime := Missing |})
         (js "gemini-2.5-flash-lite") true
  /\ In (ConsoleLog (js "Success with model: gemini-2.5-flash-lite")) (snd run)
  /\ In (ConsoleError (js "All models failed:") None) (snd run)
  /\ invoked_models (snd run) = [js "gemini-2.5-flash-lite"]
  /\ payload (fst run')
     = SummaryBody (Summary.fallback_text []) (js "gemini-2.5-flash-lite") true.
Proof.
  intros run run'.
  assert (Hrun : fst run
                 = send 200
                     (PromptBody
                        (Dashboard.fallback_text
                           {| Dashboard.assessmentSummary := None;
                              Dashboard.prioritizedVirtues := Absent;
                              Dashboard.stageProgress := None;
                              Dashboard.recentProgress := None;
                              Dashboard.isFirstTime := Missing |})
                        (js "gemini-2.5-flash-lite") true)) by reflexivity.
  rewrite Hrun. simpl payload.
  refine (conj _ (conj _ (conj _ (conj _ (conj _ _))))); try reflexivity.
  - subst run. vm_compute. right. right. now left.
  - subst run. vm_compute. right. right. right. now left.
Qed.

(** C2.  Every candidate fails on a summary request whose priority list is
    empty.  The fallback message is produced, but the names it should list
    are replaced by nothing: it reads "appear to be . Focusing".  The
    dashboard handler, in the same situation, says "your priority virtue". *)
Theorem summary_fallback_names_nothing (JN : JsNumber) (development : bool) :
  fst (Summary.getSummaryAnalysis development (scripted []) (summary_request [] []))
  = send 200
      (SummaryBody
         (js "A full summary could not be generated at this time. Based on the data, the primary areas for development appear to be . Focusing on the root causes of challenges in these areas is a recommended next step.")
         (js "fallback") true)
  /\ fst (Dashboard.getDashboardPrompt development (scripted [])
            {| method := js "POST";
               body := ObjectBody
                         {| Dashboard.assessmentSummary := None;
                            Dashboard.prioritizedVirtues := IsArray [];
                            Dashboard.stageProgress := None;
                            Dashboard.recentProgress := None;
                            Dashboard.isFirstTime := Missing |} |})
     = send 200
         (PromptBody
            (js "Welcome to your virtue development journey! Continue your progress by focusing on the next stage of your priority virtue. Click the stage buttons to begin your reflection.")
            (js "fallback") true).
Proof. split; reflexivity. Qed.

(** C4.  A text of exactly 150 words that ends with a line break is within
    the limit, yet it is cut: the break makes a 151st, empty piece, so the
    text comes back without the break and with the ellipsis.  A text of 200
    words that starts with a space comes back with 149 words: the empty
    first piece counts as one of the 150. *)
Theorem word_limit_counts_empty_pieces :
  word_count full_length_text = 150
  /\ length (split_ws full_length_text) = 151
  /\ enforce_word_limit 150 full_length_text
     = repeated_word (js "word") 150 ++ js "..."
  /\ enforce_word_limit 150 full_length_text <> full_length_text
  /\ word_count indented_text = 200
  /\ word_count (enforce_word_limit 150 indented_text) = 149.
Proof.
  assert (H : enforce_word_limit 150 full_length_text
              = repeated_word (js "word") 150 ++ js "...") by (vm_compute; reflexivity).
  refine (conj _ (conj _ (conj H (conj _ (conj _ _))))); try (vm_compute; reflexivity).
  rewrite H. intros E.
  apply (f_equal (@length N)) in E. vm_compute in E. discriminate E.
Qed.

(** C3.  The first candidate answers with an empty text, the second would
    answer with a text.  Only the second response is structurally valid,
    but the loop ends at the first: the second candidate is never called,
    and the answer is the fallback message under the name of the first
    candidate, not the text and the name of the second.  The same happens
    on the summary endpoint. *)
Theorem empty_answer_ends_the_loop (JN : JsNumber) (development : bool) :
  let run :=
    Dashboard.getDashboardPrompt development (scripted empty_then_text)
                                 empty_dashboard_request in
  let run' :=
    Summary.getSummaryAnalysis development (scripted empty_then_text)
                               (summary_request [] []) in
  map structurally_valid empty_then_text = [false; true]
  /\ map text_of_response empty_then_text = [Some []; Some (js "Keep going.")]
  /\ invoked_models (snd run) = [js "gemini-2.5-flash-lite"]
  /\ In (ConsoleLog (js "Success with model: gemini-2.5-flash-lite")) (snd run)
  /\ payload (fst run)
     = PromptBody (Dashboard.fallback_text empty_dashboard_body)
                  (js "gemini-2.5-flash-lite") true
  /\ invoked_models (snd run') = [js "gemini-2.5-flash-lite"]
  /\ payload (fst run')
     = SummaryBody (Summary.fallback_text []) (js "gemini-2.5-flash-lite") true.
Proof.
  intros run run'.
  refine (conj _ (conj _ (conj _ (conj _ (conj _ (conj _ _)))))); try reflexivity.
  subst run. vm_compute. right. right. now left.
Qed.

(** C5.  No candidate gives a text that is not empty: a service that
    answers every call with an empty text, and one that rejects four calls
    and answers the fifth with an empty text.  The answer is the fallback
    message with status 200, but its model is the name of the candidate that
    gave the empty text, not "fallback". *)
Theorem empty_answers_are_not_named_fallback (JN : JsNumber) (development : bool) :
  let run :=
    Dashboard.getDashboardPrompt development always_empty empty_dashboard_request in
  let run5 :=
    Dashboard.getDashboardPrompt development (scripted four_failures_then_empty)
                                 empty_dashboard_request in
  let run' :=
    Summary.getSummaryAnalysis development (scripted four_failures_then_empty)
                               (summary_request [] []) in
  (forall i c, structurally_valid (always_empty i c) = false)
  /\ map structurally_valid four_failures_then_empty
     = [false; false; false; false; false]
  /\ fst run
     = send 200 (PromptBody (Dashboard.fallback_text empty_dashboard_body)
                            (js "gemini-2.5-flash-lite") true)
  /\ invoked_models (snd run5) = modelNames
  /\ fst run5
     = send 200 (PromptBody (Dashboard.fallback_text empty_dashboard_body)
                            (js "gemini-pro") true)
  /\ invoked_models (snd run') = modelNames
  /\ fst run'
     = send 200 (SummaryBody (Summary.fallback_text []) (js "gemini-pro") true).
Proof.
  intros run run5 run'.
  refine (conj _ (conj _ (conj _ (conj _ (conj _ (conj _ _)))))); reflexivity.
Qed.

(** C6.  The first call is rejected, the second is answered with an empty
    text, and the three calls that would follow would be rejected too: no
    candidate gives a valid response.  The loop ends at the second
    candidate, and the error printed with the "All models failed"
    diagnostic is the error of the first attempt, not that of the last
    candidate.  The answer to the caller carries no error. *)
Theorem first_error_is_reported_after_an_empty_answer (JN : JsNumber)
    (development : bool) :
  let run :=
    Dashboard.getDashboardPrompt development (scripted failure_then_empty)
                                 empty_dashboard_request in
  let run' :=
    Summary.getSummaryAnalysis development (scripted failure_then_empty)
                               (summary_request [] []) in
  map structurally_valid failure_then_empty = [false; false; false; false; false]
  /\ nth_error failure_then_empty 0 = Some (Rejected (Error (js "first")))
  /\ nth_error failure_then_empty 4 = Some (Rejected (Error (js "fifth")))
  /\ invoked_models (snd run) = [js "gemini-2.5-flash-lite"; js "gemini-2.0-flash-lite"]
  /\ last_diagnostic (snd run)
     = Some (js "All models failed:", Some (Error (js "first")))
  /\ fst run
     = send 200 (PromptBody (Dashboard.fallback_text empty_dashboard_body)
                            (js "gemini-2.0-flash-lite") true)
  /\ last_diagnostic (snd run')
     = Some (js "All summary models failed:", Some (Error (js "first"))).
Proof.
  intros run run'.
  refine (conj _ (conj _ (conj _ (conj _ (conj _ (conj _ _)))))); reflexivity.
Qed.

(** Properties that are [null] or missing, as the templates print them: a
    [null] name is "null" and a [null] intensity counts as 0, a missing name
    is "undefined" and a missing intensity gives [NaN]; [isFirstTime] is
    printed as "false" when missing and as "null" when [null]. *)
Example null_and_missing_properties :
  virtue_line 0 null_virtue = js "1. null (Score: 10.0)"
  /\ virtue_line 1 {| virtue := Missing; virtueId := None; defectIntensity := Missing |}
     = js "2. undefined (Score: NaN)"
  /\ Dashboard.first_time_text (@empty_dashboard_body DeciNumber) = js "false"
  /\ Dashboard.first_time_text
       {| Dashboard.assessmentSummary := None;
          Dashboard.prioritizedVirtues := @Absent (@PrioritizedVirtue DeciNumber);
          Dashboard.stageProgress := None;
          Dashboard.recentProgress := None;
          Dashboard.isFirstTime := Null |}
     = js "null".
Proof. repeat split. Qed.


(** On texts at the limit without surrounding whitespace the cut behaves
    as documented: 200 words become the first 150 and the ellipsis, 100
    words stay as they are. *)
Example word_limit_on_plain_texts :
  enforce_word_limit 150 two_hundred_words = repeated_word (js "word") 150 ++ js "..."
  /\ enforce_word_limit 150 (repeated_word (js "word") 100)
     = repeated_word (js "word") 100.
Proof. split; vm_compute; reflexivity. Qed.

(** The same answer of two hundred words on the two endpoints: the
    dashboard handler cuts it, the summary handler does not. *)
Example word_limit_on_one_endpoint_only :
  payload (fst (Dashboard.getDashboardPrompt false (scripted [answer two_hundred_words])
                  sample_dashboard_request))
  = PromptBody (repeated_word (js "word") 150 ++ js "...")
               (js "gemini-2.5-flash-lite") true
  /\ payload (fst (Summary.getSummaryAnalysis false
                     (scripted [answer two_hundred_words])
                     (summary_request [] honesty_and_patience)))
     = SummaryBody two_hundred_words (js "gemini-2.5-flash-lite") true.
Proof. split; vm_compute; reflexivity. Qed.

(** The two fallback messages of the documentation's examples. *)
Example fallback_messages :
  Dashboard.fallback_text sample_dashboard_body
  = js "Welcome to your virtue development journey! Start by working on Honesty in the Dismantling stage to begin recognizing character defects. Click the stage buttons to begin your reflection."
  /\ Summary.fallback_text honesty_and_patience
     = js "A full summary could not be generated at this time. Based on the data, the primary areas for development appear to be Honesty and Patience. Focusing on the root causes of challenges in these areas is a recommended next step.".
Proof. split; reflexivity. Qed.

(** A body whose [analyses] is not an array, with a model ready to answer. *)
Lemma malformed_summary_request_is_rejected_witness :
  Summary.getSummaryAnalysis false (scripted [answer (js "never asked")])
                             summary_without_analyses
  = (send 400
       (ErrorBody
          (js "Invalid request body: Expected analyses and prioritizedVirtues arrays.")
          None),
     [])
  /\ invocations
       (snd (Summary.getSummaryAnalysis false (scripted [answer (js "never asked")])
               summary_without_analyses))
     = [].
Proof.
  apply (@malformed_summary_request_is_rejected DeciNumber false
           (scripted [answer (js "never asked")]) summary_without_analyses).
  - intros H. vm_compute in H. discriminate H.
  - left. intros l H. discriminate H.
Defined.


(** The sample request: key [3-x] is rendered as Practicing, key [7-2] as
    a stage of an unknown virtue. *)
Lemma other_stage_tokens_and_unknown_ids_witness :
  exists prompt,
    Dashboard.build_prompt sample_dashboard_body = inr prompt
    /\ occurs_in (js "Honesty - Practicing: open") prompt
    /\ occurs_in (js "Unknown - Building: in_progress") prompt.
Proof.
  destruct (@other_stage_tokens_and_unknown_ids DeciNumber sample_dashboard_body)
    as (prompt & Hp & Hall).
  - intros H. discriminate H.
  - exists prompt. refine (conj Hp (conj _ _)).
    + destruct (Hall _ (js "3-x") (js "open") eq_refl) as (Hocc & Hpract & _).
      * right. right. left. reflexivity.
      * rewrite Hpract in Hocc.
        -- exact Hocc.
        -- intros H. vm_compute in H. discriminate H.
        -- intros H. vm_compute in H. discriminate H.
    + destruct (Hall _ (js "7-2") (js "in_progress") eq_refl) as (Hocc & _ & Hunknown).
      * right. left. reflexivity.
      * rewrite Hunknown in Hocc.
        -- exact Hocc.
        -- intros v [<-|[]]. reflexivity.
Defined.

(** Two hundred plain words: the first 150 and the ellipsis, 150 words. *)
Lemma word_limit_on_trimmed_text_witness :
  enforce_word_limit 150 two_hundred_words
  = join (js " ") (firstn 150 (words two_hundred_words)) ++ js "..."
  /\ word_count (enforce_word_limit 150 two_hundred_words) = 150.
Proof.
  apply (proj2 (word_limit_on_trimmed_text 150 two_hundred_words eq_refl eq_refl)).
  vm_compute. split; repeat constructor.
Defined.

(** The first candidate answers the sample request with an empty text. *)
Lemma dashboard_answer_by_cases_witness :
  fst (Dashboard.getDashboardPrompt false (scripted [answer []])
         sample_dashboard_request)
  = send 200
      (PromptBody (Dashboard.fallback_text sample_dashboard_body)
                  (js "gemini-2.5-flash-lite") true).
Proof.
  apply (@dashboard_answer_by_cases DeciNumber false (scripted [answer []])
           sample_dashboard_request sample_dashboard_body).
  - intros H. vm_compute in H. discriminate H.
  - reflexivity.
  - intros H. discriminate H.
Defined.


(** In production the message of the error is left out. *)
Lemma dashboard_non_array_is_internal_error_witness :
  fst (Dashboard.getDashboardPrompt false (scripted [answer (js "never asked")])
         dashboard_with_bad_virtues)
  = send 500 (ErrorBody (js "Internal server error") None)
  /\ invocations
       (snd (Dashboard.getDashboardPrompt false (scripted [answer (js "never asked")])
               dashboard_with_bad_virtues))
     = [].
Proof.
  eapply (@dashboard_non_array_is_internal_error DeciNumber false
            (scripted [answer (js "never asked")]) dashboard_with_bad_virtues).
  - intros H. vm_compute in H. discriminate H.
  - reflexivity.
  - reflexivity.
Defined.

(** A preflight request to the summary endpoint. *)
Lemma preflight_is_answered_empty_witness :
  Summary.getSummaryAnalysis false (scripted []) (preflight (@Summary.Body DeciNumber))
  = (send 204 EmptyBody, []).
Proof.
  apply (proj2 (@preflight_is_answered_empty DeciNumber false (scripted []))).
  reflexivity.
Defined.

(** A body that is not an object, with a model ready to answer. *)
Lemma dashboard_missing_body_is_rejected_witness :
  Dashboard.getDashboardPrompt false (scripted [answer (js "never asked")])
                               dashboard_without_body
  = (send 400 (ErrorBody (js "Invalid request body") None), []).
Proof.
  apply (@dashboard_missing_body_is_rejected DeciNumber false
           (scripted [answer (js "never asked")]) dashboard_without_body).
  - intros H. vm_compute in H. discriminate H.
  - intros b H. discriminate H.
Defined.

(** Two failures, then a success: two warnings, for the first two
    candidates. *)
Lemma failed_attempts_are_warned_about_witness :
  warnings
    (snd (Dashboard.getDashboardPrompt false
            (scripted [failure "first"; failure "second"; answer (js "Keep going.")])
            sample_dashboard_request))
  = [ (js "Model gemini-2.5-flash-lite failed:", js "first");
      (js "Model gemini-2.0-flash-lite failed:", js "second") ].
Proof.
  etransitivity.
  - apply (proj1 (@failed_attempts_are_warned_about DeciNumber) false
             (scripted [failure "first"; failure "second"; answer (js "Keep going.")])
             sample_dashboard_request sample_dashboard_body).
    + intros H. vm_compute in H. discriminate H.
    + reflexivity.
    + intros H. discriminate H.
  - vm_compute. reflexivity.
Defined.

(** A failure, then an empty text: the diagnostic is printed with the
    error of the failure. *)
Lemma diagnostic_goes_with_the_fallback_witness :
  last_diagnostic
    (snd (Dashboard.getDashboardPrompt false (scripted [failure "first"; answer []])
            sample_dashboard_request))
  = Some (js "All models failed:", Some (Error (js "first"))).
Proof.
  etransitivity.
  - apply (@diagnostic_goes_with_the_fallback DeciNumber false
             (scripted [failure "first"; answer []])
             sample_dashboard_request sample_dashboard_body).
    + intros H. vm_compute in H. discriminate H.
    + reflexivity.
    + intros H. discriminate H.
  - vm_compute. reflexivity.
Defined.

(** Two services that differ only from the third call on, after a success
    at the second. *)
Lemma later_outcomes_do_not_matter_witness :
  Dashboard.getDashboardPrompt false
    (scripted [failure "first"; answer (js "Keep going."); answer (js "Never read.")])
    sample_dashboard_request
  = Dashboard.getDashboardPrompt false
      (scripted [failure "first"; answer (js "Keep going.")])
      sample_dashboard_request.
Proof.
  apply (@later_outcomes_do_not_matter DeciNumber false
           (scripted [failure "first"; answer (js "Keep going.")])
           (scripted [failure "first"; answer (js "Keep going.");
                      answer (js "Never read.")])
           sample_dashboard_request sample_dashboard_body 1
           (Some (js "Keep going."))).
  - reflexivity.
  - vm_compute. reflexivity.
  - intros j c Hj. destruct j as [|[|j]]; [reflexivity | reflexivity | lia].
Defined.

(** Two hundred words after a leading space: at most 150 come back. *)
Lemma word_limit_is_enforced_witness :
  word_count (enforce_word_limit 150 indented_text) <= 150.
Proof. apply (word_limit_is_enforced 150 indented_text). lia. Defined.

(** The sample request answered with two hundred words. *)
Lemma dashboard_answer_is_bounded_witness :
  exists promptText modelUsed,
    fst (Dashboard.getDashboardPrompt false (scripted [answer two_hundred_words])
           sample_dashboard_request)
    = send 200 (PromptBody promptText modelUsed true)
    /\ (promptText = Dashboard.fallback_text sample_dashboard_body
        \/ word_count promptText <= 150)
    /\ (modelUsed = js "fallback" \/ In modelUsed modelNames).
Proof.
  apply (@dashboard_answer_is_bounded DeciNumber false
           (scripted [answer two_hundred_words]) sample_dashboard_request
           sample_dashboard_body).
  - intros H. vm_compute in H. discriminate H.
  - reflexivity.
  - intros H. discriminate H.
Defined.

(** The key of a virtue whose id is "a-b" does not find it. *)
Lemma hyphenated_ids_are_never_matched_witness :
  Dashboard.progress_line [uuid_virtue] (js "a-b-1", js "done")
  = js "Unknown - Practicing: done".
Proof.
  apply (@hyphenated_ids_are_never_matched DeciNumber [uuid_virtue]
           (js "a-b-1") (js "done")).
  intros v [<-|[]]. exists (js "a-b"). split; [reflexivity|].
  right. left. reflexivity.
Defined.

(** A summary request with one analysis and two virtues without scores,
    and one whose first virtue has [null] for its name and its intensity. *)
Lemma summary_prompt_embeds_its_data_witness :
  occurs_in (js "2. Patience (Score: NaN)")
            (Summary.build_prompt [sample_analysis] honesty_and_patience)
  /\ occurs_in (js "- Honesty: You tell the truth when it is easy.")
               (Summary.build_prompt [sample_analysis] honesty_and_patience)
  /\ occurs_in (js "1. null (Score: 10.0)")
               (Summary.build_prompt [sample_analysis] null_then_patience).
Proof.
  destruct (@summary_prompt_embeds_its_data DeciNumber [sample_analysis]
              honesty_and_patience) as [Hvirtues Hanalyses].
  refine (conj _ (conj _ _)).
  - exact (Hvirtues 1 _ eq_refl).
  - apply (Hanalyses sample_analysis). left. reflexivity.
  - exact (proj1 (@summary_prompt_embeds_its_data DeciNumber [sample_analysis]
                    null_then_patience) 0 _ eq_refl).
Defined.

(** The prompt of the sample request between its preamble and its rules. *)
Lemma prompts_keep_their_instructions_witness :
  exists prompt data,
    Dashboard.build_prompt sample_dashboard_body = inr prompt
    /\ prompt = dashboard_preamble ++ nl ++ data ++ nl ++ dashboard_rules.
Proof.
  destruct (proj1 (@prompts_keep_their_instructions DeciNumber)
              sample_dashboard_body _ eq_refl) as [data Hdata].
  eexists _, data. split; [reflexivity | exact Hdata].
Defined.

(** The fallback messages of the sample requests. *)
Lemma fallbacks_name_the_top_virtues_witness :
  occurs_in (js "Honesty in the Dismantling stage")
            (Dashboard.fallback_text sample_dashboard_body)
  /\ occurs_in (js "Honesty and Patience") (Summary.fallback_text honesty_and_patience).
Proof.
  split.
  - apply (proj1 (@fallbacks_name_the_top_virtues DeciNumber) sample_dashboard_body
             (sample_virtue "Honesty" 3 80) [] (js "Honesty")).
    + reflexivity.
    + reflexivity.
    + intros H. vm_compute in H. discriminate H.
    + reflexivity.
  - apply (proj2 (@fallbacks_name_the_top_virtues DeciNumber)
             {| virtue := Val (js "Honesty"); virtueId := None;
                defectIntensity := Missing |}
             {| virtue := Val (js "Patience"); virtueId := None;
                defectIntensity := Missing |}
             [] (js "Honesty") (js "Patience") eq_refl eq_refl).
Defined.

(** Two hundred words on two hundred lines: the 150 that are kept come
    back on one line. *)
Lemma cut_text_has_only_plain_spaces_witness :
  Forall plain (enforce_word_limit 150 two_hundred_lines).
Proof.
  apply (cut_text_has_only_plain_spaces 150 two_hundred_lines).
  apply Nat.ltb_lt. vm_compute. reflexivity.
Defined.

(** A key with a third piece. *)
Lemma keys_are_read_up_to_the_second_hyphen_witness :
  Dashboard.progress_line [sample_virtue "Honesty" 3 80] (js "3-1-draft", js "completed")
  = Dashboard.progress_line [sample_virtue "Honesty" 3 80] (js "3-1", js "completed").
Proof.
  apply (@keys_are_read_up_to_the_second_hyphen DeciNumber
           [sample_virtue "Honesty" 3 80] (js "3") (js "1") (js "draft")
           (js "completed")).
  - intros [H|[]]. vm_compute in H. discriminate H.
  - intros [H|[]]. vm_compute in H. discriminate H.
Defined.

(** Two failures, then two hundred words: the summary is the two hundred
    words, the dashboard prompt their first hundred and fifty. *)
Lemma summary_text_is_returned_unmodified_witness :
  fst (Summary.getSummaryAnalysis false (scripted two_failures_then_text)
         sample_summary_request)
  = send 200 (SummaryBody two_hundred_words (js "gemini-1.5-flash-lite") true)
  /\ fst (Dashboard.getDashboardPrompt false (scripted two_failures_then_text)
            sample_dashboard_request)
     = send 200 (PromptBody (enforce_word_limit 150 two_hundred_words)
                            (js "gemini-1.5-flash-lite") true).
Proof.
  split.
  - apply (proj1 (@summary_text_is_returned_unmodified DeciNumber false
                    (scripted two_failures_then_text))
             sample_summary_request 2 third_summary_call two_hundred_words).
    + vm_compute. reflexivity.
    + reflexivity.
    + intros H. vm_compute in H. discriminate H.
  - apply (proj2 (@summary_text_is_returned_unmodified DeciNumber false
                    (scripted two_failures_then_text))
             sample_dashboard_request 2 third_dashboard_call two_hundred_words).
    + vm_compute. reflexivity.
    + reflexivity.
    + intros H. vm_compute in H. discriminate H.
Defined.

(** Two failures, then a text: three calls, to the first three candidates. *)
Lemma valid_response_ends_the_calls_witness :
  invoked_models
    (snd (Summary.getSummaryAnalysis false (scripted two_failures_then_text)
            sample_summary_request))
  = [js "gemini-2.5-flash-lite"; js "gemini-2.0-flash-lite"; js "gemini-1.5-flash-lite"].
Proof.
  apply (proj2 (@valid_response_ends_the_calls DeciNumber false
                  (scripted two_failures_then_text))
           sample_summary_request 2 third_summary_call).
  - vm_compute. reflexivity.
  - reflexivity.
Defined.

(** The five failing outcomes on the sample request: the answer is the
    fallback message under the name "fallback". *)
Lemma calls_without_text_lead_to_the_fallback_witness :
  fst (Dashboard.getDashboardPrompt false (scripted five_failures)
         sample_dashboard_request)
  = send 200
      (PromptBody (Dashboard.fallback_text sample_dashboard_body) (js "fallback") true).
Proof.
  apply (proj1 (@calls_without_text_lead_to_the_fallback DeciNumber false
                  (scripted five_failures))
           sample_dashboard_request sample_dashboard_body).
  - intros H. vm_compute in H. discriminate H.
  - reflexivity.
  - intros H. discriminate H.
  - intros i c _. unfold scripted.
    do 5 (destruct i as [|i]; [reflexivity|]). now destruct i.
Defined.

(** Four responses without a text part and a rejected fifth call: the
    diagnostic holds the error of the rejection. *)
Lemma rejection_of_the_last_call_is_reported_witness :
  last_diagnostic
    (snd (Summary.getSummaryAnalysis false (scripted failures_ending_rejected)
            sample_summary_request))
  = Some (js "All summary models failed:", Some (Error (js "quota exceeded"))).
Proof.
  apply (proj2 (@rejection_of_the_last_call_is_reported DeciNumber false
                  (scripted failures_ending_rejected))
           sample_summary_request
           (call_for Summary.summary (Summary.build_prompt [] honesty_and_patience)
                     (js "gemini-pro"))).
  - intros i c _. unfold scripted.
    do 5 (destruct i as [|i]; [reflexivity|]). now destruct i.
  - vm_compute. reflexivity.
  - reflexivity.
Defined.

(** A text with a leading space and a trailing line break: two words and
    two empty pieces. *)
Lemma words_are_the_nonempty_pieces_witness :
  words (js " one two" ++ nl) = [js "one"; js "two"]
  /\ length (split_ws (js " one two" ++ nl)) = 4.
Proof.
  destruct (words_are_the_nonempty_pieces (js " one two" ++ nl)) as (Hwords & Hlen & _).
  split.
  - rewrite Hwords. reflexivity.
  - rewrite Hlen. reflexivity.
Defined.
